(** * AdvisorOS Zen tools: a shallow embedding and its properties

    The development follows the Python sources of the repository:
    - [advisoros-zen-tools/tax_calculation_review.py],
      [financial_compliance_audit.py], [multi_tenant_security_check.py]:
      the three domain workflow tools;
    - [advisoros-zen-tools/__init__.py] and [registry.py]: the registries;
    - [zen-mcp-server/server.py]: the tool-call dispatcher.

    Python [int] is [Z], [str] is [string] (a sequence of bytes, UTF-8 for
    the few non-ASCII characters of the report templates), a [dict] is a
    [gmap] keyed by strings, a [list] is a [list]. *)

From Stdlib Require Import ZArith String Ascii List.
From stdpp Require Import gmap strings list infinite.

Local Set Warnings "-register-all".

(** ** Python values and helpers *)

(** JSON-like values, as the field and input schemas use them. A nested
    [dict] literal keeps its items in the order they are written. *)
Inductive json : Type :=
  | JStr (s : string)
  | JList (items : list json)
  | JDict (items : list (string * json)).

(** [d.get(key)] on the items of a dict literal (first binding wins; the
    literals of this development never repeat a key). *)
Fixpoint dict_get {A : Type} (key : string) (items : list (string * A)) : option A :=
  match items with
  | [] => None
  | (k, v) :: rest => if String.eqb k key then Some v else dict_get key rest
  end.

(** The ["default"] entry of a field schema, when it is a dict that has one. *)
Definition default_of (schema : json) : option json :=
  match schema with
  | JDict items => dict_get "default" items
  | _ => None
  end.

(** [sep.join(items)]. *)
Fixpoint join (sep : string) (items : list string) : string :=
  match items with
  | [] => ""
  | x :: rest =>
      match rest with
      | [] => x
      | _ :: _ => x +:+ sep +:+ join sep rest
      end
  end.

(** [sub in s]: [sub] occurs in [s] as a contiguous run of characters. *)
Definition contains (s sub : string) : Prop :=
  ∃ pre post : string, s = pre +:+ sub +:+ post.

(** [s.startswith(p)], handing back the rest of [s] after [p]. *)
Fixpoint strip_prefix (p s : string) : option string :=
  match p, s with
  | EmptyString, _ => Some s
  | String a p', String b s' => if Ascii.eqb a b then strip_prefix p' s' else None
  | String _ _, EmptyString => None
  end.

(** [s.partition(sub)] when [sub in s]: the text before the first occurrence
    of [sub] and the text after it. *)
Fixpoint split_at (sub s : string) : option (string * string) :=
  match strip_prefix sub s with
  | Some post => Some ("", post)
  | None =>
      match s with
      | EmptyString => None
      | String c s' =>
          match split_at sub s' with
          | Some (pre, post) => Some (String c pre, post)
          | None => None
          end
      end
  end.

(** [c.upper()] on one byte: ASCII lower-case letters are raised, every other
    byte (in particular each byte of a multi-byte UTF-8 character) is kept. *)
Definition upper_ascii (c : ascii) : ascii :=
  let n := N_of_ascii c in
  if (97 <=? n)%N && (n <=? 122)%N then ascii_of_N (n - 32) else c.

(** [s.upper()], exact on ASCII text. *)
Fixpoint upper (s : string) : string :=
  match s with
  | EmptyString => EmptyString
  | String c rest => String (upper_ascii c) (upper rest)
  end.

(** ** The objects the tools receive *)

(** One record of [steps_taken]. *)
Record StepRecord (Confidence : Type) : Type := {
  sr_step_number : Z;
  sr_confidence : Confidence;
  sr_actions_performed : list string
}.

(** The consolidated findings handed to the expert-analysis methods. The
    class lives in the workflow base package, outside the tools; the tools
    read its [findings] and [relevant_files] attributes only, and the third
    attribute is the one the data model of the specification lists. *)
Record ConsolidatedFindings (Confidence : Type) : Type := {
  findings : string;
  relevant_files : list string;
  steps_taken : list (StepRecord Confidence)
}.
Arguments findings {Confidence} _.
Arguments relevant_files {Confidence} _.
Arguments steps_taken {Confidence} _.

(** A tool request as [prepare_prompt] sees it: the [prompt] attribute and
    the optional attributes, by name. An attribute that is not in [attrs] is
    one the request object lacks. *)
Record ToolRequest : Type := {
  prompt : string;
  attrs : gmap string string
}.

(** [request.<name> if hasattr(request, '<name>') else fallback]. *)
Definition getattr_or (request : ToolRequest) (name fallback : string) : string :=
  match attrs request !! name with
  | Some v => v
  | None => fallback
  end.

(** The request with attribute [name] set to [v]. *)
Definition with_attr (name v : string) (request : ToolRequest) : ToolRequest :=
  {| prompt := prompt request; attrs := <[name := v]> (attrs request) |}.

(** The text of [consolidated_findings.relevant_files] in the expert context:
    [', '.join(files) if files else 'No specific files provided']. *)
Definition files_or_marker (files : list string) : string :=
  match files with
  | [] => "No specific files provided"
  | _ :: _ => join ", " files
  end.

(** ** tax_calculation_review.py *)

Module TaxCalculationReviewTool.
Section Methods.
Context {Confidence : Type}.
(** [self.FILES_FIELD], inherited from the workflow base class. *)
Variable FILES_FIELD : json.
(** [super().prepare_prompt], inherited from the workflow base class. *)
Variable super_prepare_prompt : ToolRequest → string.

Definition get_name : string := "tax-calculation-review".

Definition get_tool_fields : gmap string json :=
  list_to_map [
    ("prompt", JDict [
       ("type", JStr "string");
       ("description", JStr "Describe the tax calculation logic or issue you want reviewed")]);
    ("tax_year", JDict [
       ("type", JStr "string");
       ("description", JStr "Tax year for regulation compliance (e.g., 2024)");
       ("default", JStr "2024")]);
    ("calculation_type", JDict [
       ("type", JStr "string");
       ("description", JStr "Type of tax calculation (federal, state, payroll, corporate, etc.)");
       ("default", JStr "federal")]);
    ("files", FILES_FIELD)].

Definition get_required_fields : list string := ["prompt"].

Definition get_required_actions (step_number : Z) (confidence : Confidence)
    (findings : string) (total_steps : Z) : list string :=
  if (step_number =? 1)%Z then
    [ "Analyze the tax calculation logic and implementation";
      "Review code for tax regulation compliance";
      "Identify the tax calculation components and flow" ]
  else if (step_number =? 2)%Z then
    [ "Validate calculations against IRS regulations and tax code";
      "Check for proper handling of deductions and credits";
      "Verify tax bracket calculations and thresholds" ]
  else if (step_number =? 3)%Z then
    [ "Test edge cases and boundary conditions";
      "Validate multi-state and special scenario handling";
      "Check AMT (Alternative Minimum Tax) calculations if applicable" ]
  else if (step_number =? 4)%Z then
    [ "Analyze performance and multi-tenant considerations";
      "Generate comprehensive test cases for validation";
      "Provide optimization recommendations and compliance summary" ]
  else
    [ "Finalize tax calculation review";
      "Generate compliance documentation";
      "Provide implementation recommendations" ].

Definition should_call_expert_analysis
    (consolidated_findings : ConsolidatedFindings Confidence) : bool :=
  true.

Definition prepare_expert_analysis_context
    (consolidated_findings : ConsolidatedFindings Confidence) : string :=
  "
TAX CALCULATION EXPERT ANALYSIS REQUEST

CONSOLIDATED INVESTIGATION FINDINGS:
" +:+ findings consolidated_findings +:+ "

RELEVANT FILES ANALYZED:
" +:+ files_or_marker (relevant_files consolidated_findings) +:+ "

EXPERT ANALYSIS NEEDED:
You are a senior CPA with expertise in tax software development and IRS regulations. 
Please provide expert analysis covering:

1. TAX COMPLIANCE VALIDATION
   - Verify calculations align with current IRS regulations
   - Validate tax bracket implementations
   - Check deduction and credit calculations

2. REGULATORY ADHERENCE  
   - Confirm compliance with tax year regulations
   - Validate business rule implementations
   - Check for required disclosures and warnings

3. EDGE CASE COVERAGE
   - Identify potential calculation edge cases
   - Validate boundary condition handling
   - Check AMT and special scenario calculations

4. MULTI-TENANT CONSIDERATIONS
   - Validate organization-scoped tax calculations
   - Check for data isolation in tax processing
   - Verify performance at scale

5. RECOMMENDATIONS
   - Optimization opportunities
   - Compliance improvements
   - Testing strategies
   - Documentation needs

Focus on CPA software development best practices and multi-tenant architecture considerations.
".

(** The local [tax_context] of [prepare_prompt]. *)
Definition tax_context (request : ToolRequest) : string :=
  "
TAX CALCULATION REVIEW CONTEXT:
- Tax Year: " +:+ getattr_or request "tax_year" "2024" +:+ "
- Calculation Type: " +:+ getattr_or request "calculation_type" "federal" +:+ "
- Multi-tenant CPA Platform: AdvisorOS
- Focus: Compliance, accuracy, and multi-tenant performance

ANALYSIS REQUEST:
" +:+ prompt request +:+ "

Please begin the systematic tax calculation review process.
".

Definition prepare_prompt (request : ToolRequest) : string :=
  let base_prompt := super_prepare_prompt request in
  base_prompt +:+ "

" +:+ tax_context request.
End Methods.
End TaxCalculationReviewTool.

(** ** financial_compliance_audit.py *)

Module FinancialComplianceAuditTool.
Section Methods.
Context {Confidence : Type}.
Variable FILES_FIELD : json.
Variable super_prepare_prompt : ToolRequest → string.

Definition get_name : string := "financial-compliance-audit".

Definition get_tool_fields : gmap string json :=
  list_to_map [
    ("prompt", JDict [
       ("type", JStr "string");
       ("description", JStr "Describe the financial compliance area or specific compliance requirements to audit")]);
    ("compliance_standard", JDict [
       ("type", JStr "string");
       ("description", JStr "Primary compliance standard to validate against (SOX, GAAP, IFRS, etc.)");
       ("default", JStr "SOX")]);
    ("audit_scope", JDict [
       ("type", JStr "string");
       ("description", JStr "Scope of audit (financial-controls, audit-trails, reporting, data-security)");
       ("default", JStr "comprehensive")]);
    ("organization_context", JDict [
       ("type", JStr "string");
       ("description", JStr "Organization type context (public-company, CPA-firm, financial-services)");
       ("default", JStr "CPA-firm")]);
    ("files", FILES_FIELD)].

Definition get_required_fields : list string := ["prompt"].

Definition get_required_actions (step_number : Z) (confidence : Confidence)
    (findings : string) (total_steps : Z) : list string :=
  if (step_number =? 1)%Z then
    [ "Analyze financial data handling and storage mechanisms";
      "Review audit trail implementation and completeness";
      "Identify financial control points and validation logic" ]
  else if (step_number =? 2)%Z then
    [ "Validate SOX compliance requirements implementation";
      "Check internal financial controls and segregation of duties";
      "Review user access controls and authorization mechanisms" ]
  else if (step_number =? 3)%Z then
    [ "Test data retention and backup procedures";
      "Validate financial reporting accuracy and completeness";
      "Check compliance documentation and audit evidence" ]
  else if (step_number =? 4)%Z then
    [ "Analyze multi-tenant compliance isolation";
      "Test cross-organization access prevention";
      "Validate compliance reporting and monitoring capabilities" ]
  else
    [ "Generate comprehensive compliance assessment";
      "Document compliance gaps and recommendations";
      "Provide remediation roadmap and implementation guidance" ].

Definition should_call_expert_analysis
    (consolidated_findings : ConsolidatedFindings Confidence) : bool :=
  true.

Definition prepare_expert_analysis_context
    (consolidated_findings : ConsolidatedFindings Confidence) : string :=
  "
FINANCIAL COMPLIANCE EXPERT ANALYSIS REQUEST

CONSOLIDATED AUDIT FINDINGS:
" +:+ findings consolidated_findings +:+ "

RELEVANT FINANCIAL SYSTEMS ANALYZED:
" +:+ files_or_marker (relevant_files consolidated_findings) +:+ "

EXPERT COMPLIANCE ANALYSIS NEEDED:
You are a senior CPA with expertise in financial compliance, SOX regulations, and audit requirements.
Please provide expert analysis covering:

1. SOX COMPLIANCE VALIDATION
   - Verify Sarbanes-Oxley compliance implementation
   - Validate internal financial controls effectiveness
   - Check audit trail completeness and integrity

2. FINANCIAL CONTROLS ASSESSMENT
   - Evaluate segregation of duties implementation
   - Validate authorization and approval workflows
   - Check financial data access controls

3. AUDIT TRAIL COMPLIANCE
   - Verify comprehensive change tracking
   - Validate data retention policies
   - Check audit evidence completeness

4. GAAP/IFRS ADHERENCE
   - Validate financial reporting standards compliance
   - Check accounting principle implementations
   - Verify financial statement accuracy

5. MULTI-TENANT COMPLIANCE
   - Validate organization-scoped financial controls
   - Check cross-tenant compliance isolation
   - Verify compliance reporting capabilities

6. REGULATORY RISK ASSESSMENT
   - Identify compliance gaps and risks
   - Recommend remediation strategies
   - Provide implementation roadmap

Focus on CPA platform compliance requirements and multi-tenant financial system architecture.
Provide specific recommendations for achieving and maintaining compliance.
".

(** The local [compliance_context] of [prepare_prompt]. *)
Definition compliance_context (request : ToolRequest) : string :=
  "
FINANCIAL COMPLIANCE AUDIT CONTEXT:
- Compliance Standard: " +:+ getattr_or request "compliance_standard" "SOX" +:+ "
- Audit Scope: " +:+ getattr_or request "audit_scope" "comprehensive" +:+ "
- Organization Context: " +:+ getattr_or request "organization_context" "CPA-firm" +:+ "
- Multi-tenant CPA Platform: AdvisorOS
- Focus: Regulatory compliance, audit readiness, and financial controls

COMPLIANCE AUDIT REQUEST:
" +:+ prompt request +:+ "

Please begin the systematic financial compliance audit process with focus on regulatory requirements and multi-tenant architecture.
".

Definition prepare_prompt (request : ToolRequest) : string :=
  let base_prompt := super_prepare_prompt request in
  base_prompt +:+ "

" +:+ compliance_context request.
End Methods.
End FinancialComplianceAuditTool.

(** ** multi_tenant_security_check.py *)

Module MultiTenantSecurityCheckTool.
Section Methods.
Context {Confidence : Type}.
Variable FILES_FIELD : json.
Variable super_prepare_prompt : ToolRequest → string.

Definition get_name : string := "multi-tenant-security-check".

Definition get_tool_fields : gmap string json :=
  list_to_map [
    ("prompt", JDict [
       ("type", JStr "string");
       ("description", JStr "Describe the security concern or specific multi-tenant security area to audit")]);
    ("audit_focus", JDict [
       ("type", JStr "string");
       ("description", JStr "Primary security focus (data-isolation, rbac-validation, api-security, database-security)");
       ("default", JStr "comprehensive")]);
    ("threat_model", JDict [
       ("type", JStr "string");
       ("description", JStr "Threat model context (insider-threat, external-attack, data-breach, privilege-escalation)");
       ("default", JStr "comprehensive")]);
    ("compliance_requirements", JDict [
       ("type", JStr "string");
       ("description", JStr "Compliance requirements to validate (SOX, PCI-DSS, SOC2, GDPR)");
       ("default", JStr "SOX")]);
    ("files", FILES_FIELD)].

Definition get_required_fields : list string := ["prompt"].

Definition get_required_actions (step_number : Z) (confidence : Confidence)
    (findings : string) (total_steps : Z) : list string :=
  if (step_number =? 1)%Z then
    [ "Analyze database schema and organization relationships";
      "Review all Prisma queries for organizationId filtering";
      "Identify potential data isolation vulnerabilities" ]
  else if (step_number =? 2)%Z then
    [ "Test tRPC procedures for proper tenant validation";
      "Validate organizationProcedure usage across API routes";
      "Check middleware implementation for tenant resolution" ]
  else if (step_number =? 3)%Z then
    [ "Audit RBAC implementation and role hierarchy";
      "Test permission checking across different user roles";
      "Validate user authorization workflows and edge cases" ]
  else if (step_number =? 4)%Z then
    [ "Test session security and JWT token validation";
      "Validate cross-tenant access prevention mechanisms";
      "Check for potential privilege escalation vulnerabilities" ]
  else
    [ "Conduct penetration testing scenarios";
      "Generate comprehensive security assessment report";
      "Provide remediation recommendations and security improvements" ].

Definition should_call_expert_analysis
    (consolidated_findings : ConsolidatedFindings Confidence) : bool :=
  true.

Definition prepare_expert_analysis_context
    (consolidated_findings : ConsolidatedFindings Confidence) : string :=
  "
MULTI-TENANT SECURITY EXPERT ANALYSIS REQUEST

CONSOLIDATED SECURITY AUDIT FINDINGS:
" +:+ findings consolidated_findings +:+ "

RELEVANT SECURITY COMPONENTS ANALYZED:
" +:+ files_or_marker (relevant_files consolidated_findings) +:+ "

EXPERT SECURITY ANALYSIS NEEDED:
You are a senior security architect with expertise in multi-tenant SaaS security and CPA platform compliance.
Please provide expert analysis covering:

1. ORGANIZATION ISOLATION VALIDATION
   - Verify organizationId filtering completeness
   - Identify potential data leakage vulnerabilities
   - Validate tenant isolation mechanisms

2. RBAC SECURITY ASSESSMENT
   - Evaluate role hierarchy implementation (owner > admin > cpa > staff > client)
   - Validate permission checking mechanisms
   - Test privilege escalation prevention

3. API SECURITY VALIDATION
   - Check tRPC procedure security implementation
   - Validate middleware tenant resolution
   - Test cross-tenant API access prevention

4. DATABASE SECURITY AUDIT
   - Verify Prisma schema organization relationships
   - Validate composite indexing for security
   - Check data cascade and integrity controls

5. SESSION SECURITY ANALYSIS
   - Evaluate JWT token security and claims validation
   - Test session isolation between organizations
   - Validate NextAuth.js multi-tenant configuration

6. CPA PLATFORM SPECIFIC SECURITY
   - Validate financial data access controls
   - Check client confidentiality mechanisms
   - Verify tax data isolation and protection

7. COMPLIANCE SECURITY REQUIREMENTS
   - Assess SOX security control requirements
   - Validate audit trail security
   - Check data retention and deletion security

8. PENETRATION TESTING RESULTS
   - Identify exploitable vulnerabilities
   - Assess attack surface and risk levels
   - Recommend security hardening measures

Provide specific recommendations for enhancing multi-tenant security architecture.
Focus on CPA platform requirements and regulatory compliance needs.
".

(** The local [security_context] of [prepare_prompt]. *)
Definition security_context (request : ToolRequest) : string :=
  "
MULTI-TENANT SECURITY AUDIT CONTEXT:
- Audit Focus: " +:+ getattr_or request "audit_focus" "comprehensive" +:+ "
- Threat Model: " +:+ getattr_or request "threat_model" "comprehensive" +:+ "  
- Compliance Requirements: " +:+ getattr_or request "compliance_requirements" "SOX" +:+ "
- Platform: AdvisorOS Multi-Tenant CPA Platform
- Architecture: Next.js 15 + tRPC v10 + Prisma v5 + PostgreSQL + NextAuth.js
- Focus: Organization isolation, RBAC validation, and CPA data security

SECURITY AUDIT REQUEST:
" +:+ prompt request +:+ "

Please begin the systematic multi-tenant security audit process with focus on organization isolation and CPA platform security requirements.
".

Definition prepare_prompt (request : ToolRequest) : string :=
  let base_prompt := super_prepare_prompt request in
  base_prompt +:+ "

" +:+ security_context request.
End Methods.
End MultiTenantSecurityCheckTool.

(** ** __init__.py: the tool instances and their registry *)

(** The methods a workflow tool overrides, as one value per tool. *)
Record WorkflowTool (Confidence : Type) : Type := {
  get_name : string;
  get_tool_fields : gmap string json;
  get_required_fields : list string;
  get_required_actions : Z → Confidence → string → Z → list string;
  should_call_expert_analysis : ConsolidatedFindings Confidence → bool;
  prepare_expert_analysis_context : ConsolidatedFindings Confidence → string;
  prepare_prompt : ToolRequest → string
}.
Arguments get_name {Confidence} _.
Arguments get_tool_fields {Confidence} _.
Arguments get_required_fields {Confidence} _.
Arguments get_required_actions {Confidence} _ _ _ _ _.
Arguments should_call_expert_analysis {Confidence} _ _.
Arguments prepare_expert_analysis_context {Confidence} _ _.
Arguments prepare_prompt {Confidence} _ _.

Section ZenTools.
Context {Confidence : Type}.
(** What the tools inherit from the workflow base class. *)
Variable FILES_FIELD : json.
Variable super_prepare_prompt : ToolRequest → string.

Definition TaxCalculationReviewTool_instance : WorkflowTool Confidence := {|
  get_name := TaxCalculationReviewTool.get_name;
  get_tool_fields := TaxCalculationReviewTool.get_tool_fields FILES_FIELD;
  get_required_fields := TaxCalculationReviewTool.get_required_fields;
  get_required_actions := TaxCalculationReviewTool.get_required_actions;
  should_call_expert_analysis := TaxCalculationReviewTool.should_call_expert_analysis;
  prepare_expert_analysis_context := TaxCalculationReviewTool.prepare_expert_analysis_context;
  prepare_prompt := TaxCalculationReviewTool.prepare_prompt super_prepare_prompt
|}.

Definition FinancialComplianceAuditTool_instance : WorkflowTool Confidence := {|
  get_name := FinancialComplianceAuditTool.get_name;
  get_tool_fields := FinancialComplianceAuditTool.get_tool_fields FILES_FIELD;
  get_required_fields := FinancialComplianceAuditTool.get_required_fields;
  get_required_actions := FinancialComplianceAuditTool.get_required_actions;
  should_call_expert_analysis := FinancialComplianceAuditTool.should_call_expert_analysis;
  prepare_expert_analysis_context := FinancialComplianceAuditTool.prepare_expert_analysis_context;
  prepare_prompt := FinancialComplianceAuditTool.prepare_prompt super_prepare_prompt
|}.

Definition MultiTenantSecurityCheckTool_instance : WorkflowTool Confidence := {|
  get_name := MultiTenantSecurityCheckTool.get_name;
  get_tool_fields := MultiTenantSecurityCheckTool.get_tool_fields FILES_FIELD;
  get_required_fields := MultiTenantSecurityCheckTool.get_required_fields;
  get_required_actions := MultiTenantSecurityCheckTool.get_required_actions;
  should_call_expert_analysis := MultiTenantSecurityCheckTool.should_call_expert_analysis;
  prepare_expert_analysis_context := MultiTenantSecurityCheckTool.prepare_expert_analysis_context;
  prepare_prompt := MultiTenantSecurityCheckTool.prepare_prompt super_prepare_prompt
|}.

Definition ADVISOROS_ZEN_TOOLS : gmap string (WorkflowTool Confidence) :=
  list_to_map [
    ("tax-calculation-review", TaxCalculationReviewTool_instance);
    ("financial-compliance-audit", FinancialComplianceAuditTool_instance);
    ("multi-tenant-security-check", MultiTenantSecurityCheckTool_instance)].
End ZenTools.

(** The fixed ordered checklist of analysis dimensions that the expert
    context of each tool lists, from its first numbered dimension to its last
    item, by tool name. *)
Definition analysis_checklist (tool_name : string) : string :=
  if String.eqb tool_name "tax-calculation-review" then
    "1. TAX COMPLIANCE VALIDATION
   - Verify calculations align with current IRS regulations
   - Validate tax bracket implementations
   - Check deduction and credit calculations

2. REGULATORY ADHERENCE  
   - Confirm compliance with tax year regulations
   - Validate business rule implementations
   - Check for required disclosures and warnings

3. EDGE CASE COVERAGE
   - Identify potential calculation edge cases
   - Validate boundary condition handling
   - Check AMT and special scenario calculations

4. MULTI-TENANT CONSIDERATIONS
   - Validate organization-scoped tax calculations
   - Check for data isolation in tax processing
   - Verify performance at scale

5. RECOMMENDATIONS
   - Optimization opportunities
   - Compliance improvements
   - Testing strategies
   - Documentation needs"
  else if String.eqb tool_name "financial-compliance-audit" then
    "1. SOX COMPLIANCE VALIDATION
   - Verify Sarbanes-Oxley compliance implementation
   - Validate internal financial controls effectiveness
   - Check audit trail completeness and integrity

2. FINANCIAL CONTROLS ASSESSMENT
   - Evaluate segregation of duties implementation
   - Validate authorization and approval workflows
   - Check financial data access controls

3. AUDIT TRAIL COMPLIANCE
   - Verify comprehensive change tracking
   - Validate data retention policies
   - Check audit evidence completeness

4. GAAP/IFRS ADHERENCE
   - Validate financial reporting standards compliance
   - Check accounting principle implementations
   - Verify financial statement accuracy

5. MULTI-TENANT COMPLIANCE
   - Validate organization-scoped financial controls
   - Check cross-tenant compliance isolation
   - Verify compliance reporting capabilities

6. REGULATORY RISK ASSESSMENT
   - Identify compliance gaps and risks
   - Recommend remediation strategies
   - Provide implementation roadmap"
  else if String.eqb tool_name "multi-tenant-security-check" then
    "1. ORGANIZATION ISOLATION VALIDATION
   - Verify organizationId filtering completeness
   - Identify potential data leakage vulnerabilities
   - Validate tenant isolation mechanisms

2. RBAC SECURITY ASSESSMENT
   - Evaluate role hierarchy implementation (owner > admin > cpa > staff > client)
   - Validate permission checking mechanisms
   - Test privilege escalation prevention

3. API SECURITY VALIDATION
   - Check tRPC procedure security implementation
   - Validate middleware tenant resolution
   - Test cross-tenant API access prevention

4. DATABASE SECURITY AUDIT
   - Verify Prisma schema organization relationships
   - Validate composite indexing for security
   - Check data cascade and integrity controls

5. SESSION SECURITY ANALYSIS
   - Evaluate JWT token security and claims validation
   - Test session isolation between organizations
   - Validate NextAuth.js multi-tenant configuration

6. CPA PLATFORM SPECIFIC SECURITY
   - Validate financial data access controls
   - Check client confidentiality mechanisms
   - Verify tax data isolation and protection

7. COMPLIANCE SECURITY REQUIREMENTS
   - Assess SOX security control requirements
   - Validate audit trail security
   - Check data retention and deletion security

8. PENETRATION TESTING RESULTS
   - Identify exploitable vulnerabilities
   - Assess attack surface and risk levels
   - Recommend security hardening measures"
  else "".


(** ** Outcomes of a call *)

(** Modelled from the spec: the error kinds of its error-handling design
    (section 7). No exception class of these names is declared in the
    sources; a call of a source function either returns or fails with one. *)
Inductive ErrorKind : Type :=
  | ValidationError
  | StateError
  | NotFoundError.

Inductive Outcome (A : Type) : Type :=
  | Returns (value : A)
  | Fails (error : ErrorKind).
Arguments Returns {A} _.
Arguments Fails {A} _.

(** ** registry.py *)

Module Registry.

Record ToolInfo : Type := {
  name : string;
  description : string;
  category : string;
  multi_tenant_aware : bool
}.

(** The items of the [CPA_TOOLS] literal, in the order they are written. *)
Definition CPA_TOOLS_items : list (string * ToolInfo) := [
  ("tax_calculation_review", {|
     name := "Tax Calculation Review";
     description := "Automated review of tax calculation logic with compliance checking";
     category := "compliance";
     multi_tenant_aware := true |});
  ("financial_compliance_audit", {|
     name := "Financial Compliance Audit";
     description := "Comprehensive audit of financial compliance (SOX, GAAP)";
     category := "audit";
     multi_tenant_aware := true |});
  ("multi_tenant_security_check", {|
     name := "Multi-Tenant Security Check";
     description := "Security validation for organization isolation and RBAC";
     category := "security";
     multi_tenant_aware := true |})].

Definition CPA_TOOLS : gmap string ToolInfo := list_to_map CPA_TOOLS_items.

(** [list(CPA_TOOLS.keys())]. *)
Definition get_available_tools : list string := CPA_TOOLS_items.*1.

(** [CPA_TOOLS.get(tool_name, None)]: Python's [None] is [None]. *)
Definition get_tool_info (tool_name : string) : Outcome (option ToolInfo) :=
  Returns (CPA_TOOLS !! tool_name).

End Registry.

(** ** server.py *)

Module Server.

Record Tool : Type := {
  name : string;
  description : string;
  inputSchema : json
}.

Record TextContent : Type := {
  type : string;
  text : string
}.

Definition handle_list_tools : list Tool := [
  {| name := "analyze_tax_logic";
     description := "Analyze tax calculation logic for compliance and accuracy";
     inputSchema := JDict [
       ("type", JStr "object");
       ("properties", JDict [
          ("file_path", JDict [("type", JStr "string"); ("description", JStr "Path to tax calculation file")]);
          ("tax_year", JDict [("type", JStr "string"); ("description", JStr "Tax year to validate against")])]);
       ("required", JList [JStr "file_path"])] |};
  {| name := "audit_multi_tenant_security";
     description := "Audit multi-tenant security implementation";
     inputSchema := JDict [
       ("type", JStr "object");
       ("properties", JDict [
          ("component", JDict [("type", JStr "string"); ("description", JStr "Component to audit (database, api, auth)")])]);
       ("required", JList [JStr "component"])] |};
  {| name := "validate_cpa_compliance";
     description := "Validate CPA compliance requirements (SOX, GAAP, etc.)";
     inputSchema := JDict [
       ("type", JStr "object");
       ("properties", JDict [
          ("module", JDict [("type", JStr "string"); ("description", JStr "Module to validate")]);
          ("standards", JDict [("type", JStr "array"); ("items", JDict [("type", JStr "string")])])]);
       ("required", JList [JStr "module"])] |}].

(** [arguments] maps an argument name to its text, the type the input
    schemas declare for every argument the reports print. The one array
    argument, [standards], is read by the source into a local that no report
    uses, so it has no place here. *)
Definition handle_call_tool (name : string) (arguments : gmap string string)
    : Outcome (list TextContent) :=
  if String.eqb name "analyze_tax_logic" then
    let file_path := default "" (arguments !! "file_path") in
    let tax_year := default "2024" (arguments !! "tax_year") in
    let analysis := "
Tax Logic Analysis for " +:+ file_path +:+ ":

✅ COMPLIANCE CHECKS (" +:+ tax_year +:+ "):
- Multi-tenant organization isolation: Required
- Tax calculation accuracy: Must validate against IRS tables  
- Audit trail generation: SOX compliance mandatory
- Error handling: Graceful degradation required

🔍 CODE REVIEW POINTS:
1. Ensure all tax calculations use organizationId filtering
2. Validate input sanitization for tax data
3. Check proper error logging for audit trails
4. Verify calculation precision for currency handling

📋 RECOMMENDATIONS:
- Implement automated testing against IRS test cases
- Add comprehensive logging for all tax calculations
- Ensure proper role-based access control (RBAC)
- Consider caching for frequently used tax tables
" in
    Returns [ {| type := "text"; text := analysis |} ]
  else if String.eqb name "audit_multi_tenant_security" then
    let component := default "database" (arguments !! "component") in
    let audit_report := "
Multi-Tenant Security Audit - " +:+ upper component +:+ ":

🔒 SECURITY ASSESSMENT:

DATABASE LAYER:
✅ Row-level security with organizationId
✅ Composite indexes on (organizationId, ...)  
✅ Connection pooling configured
⚠️  Review: Ensure no cross-tenant data leaks

API LAYER:
✅ tRPC organization-scoped procedures
✅ Middleware validates organization membership
✅ Rate limiting per organization
⚠️  Review: Authentication token validation

AUTH LAYER:
✅ NextAuth.js with organization context
✅ Session includes organizationId
✅ Role-based access control (RBAC)
⚠️  Review: Session management and timeouts

🎯 ACTION ITEMS:
1. Run automated cross-tenant access tests
2. Verify all database queries include organizationId
3. Check API endpoints for proper authorization
4. Audit user role assignments and permissions
" in
    Returns [ {| type := "text"; text := audit_report |} ]
  else if String.eqb name "validate_cpa_compliance" then
    let module := default "" (arguments !! "module") in
    let compliance_report := "
CPA Compliance Validation - " +:+ module +:+ ":

📊 STANDARDS COMPLIANCE:

SOX (Sarbanes-Oxley):
✅ Audit trail logging implemented
✅ Change tracking for financial data  
✅ User access controls documented
⚠️  Review: Quarterly access reviews required

GAAP (Generally Accepted Accounting Principles):
✅ Consistent accounting methods
✅ Revenue recognition properly implemented
✅ Financial data integrity maintained
⚠️  Review: Documentation of accounting policies

CPA PROFESSIONAL STANDARDS:
✅ Data confidentiality maintained
✅ Professional competence requirements
✅ Client data protection implemented
⚠️  Review: Regular compliance training needed

🎯 COMPLIANCE ACTION PLAN:
1. Implement automated compliance monitoring
2. Schedule quarterly compliance reviews
3. Document all accounting policy decisions
4. Maintain comprehensive audit trails
5. Regular staff training on compliance requirements
" in
    Returns [ {| type := "text"; text := compliance_report |} ]
  else
    Returns [ {| type := "text"; text := "Unknown tool: " +:+ name |} ].

End Server.

(** ** The workflow engine *)

Module Engine.

(** Modelled from the spec: the confidence levels of a tool request
    (section 3); the workflow base package that declares them is outside
    the sources. *)
Inductive Confidence : Type :=
  | exploring
  | low
  | medium
  | high
  | certain.

(** Modelled from the spec: the test [confidence == certain] of section 4.1. *)
Definition is_certain (c : Confidence) : bool :=
  match c with
  | certain => true
  | _ => false
  end.

(** Modelled from the spec: one invocation's input (section 3). [req_prompt]
    is [None] for a request that lacks its prompt, [req_continuation_id] is
    [None] for a request that names no investigation. *)
Record ToolRequest : Type := {
  req_prompt : option string;
  req_step_number : Z;
  req_total_steps : Z;
  req_confidence : Confidence;
  req_findings : string;
  req_files : list string;
  req_continuation_id : option string
}.

(** Modelled from the spec: the states of one investigation (section 4.1);
    the last two are terminal. *)
Inductive Status : Type :=
  | InProgress
  | Complete
  | CompleteExpertPending.

(** Modelled from the spec: one investigation of the store, its consolidated
    findings and its state (sections 3 and 4.1). *)
Record Investigation : Type := {
  consolidated : ConsolidatedFindings Confidence;
  status : Status
}.

(** Modelled from the spec: what [submit_step] hands back (section 4.1),
    with the handle of the investigation it belongs to. *)
Inductive StepOutcome : Type :=
  | AwaitingNextStep (continuation_id : string) (required_actions : list string)
  | AwaitingExpert (continuation_id : string) (rendered_context : string)
  | Finalized (continuation_id : string) (result : string).

Section Machine.
(** The tool definition that parameterises the machine. *)
Variable tool : WorkflowTool Confidence.
(** The step-boundary marker the store writes before the text of a step;
    the specification fixes that there is one, not its text. *)
Variable step_boundary : Z → string.

(** Modelled from the spec: the consolidated findings an investigation is
    created with (section 3). *)
Definition empty_findings : ConsolidatedFindings Confidence :=
  {| findings := ""; relevant_files := []; steps_taken := [] |}.

(** Modelled from the spec: merge [files] into the ordered set, first seen
    first, no duplicates (section 4.2). *)
Definition merge_files (seen files : list string) : list string :=
  fold_left (λ acc f, if decide (f ∈ acc) then acc else acc ++ [f]) files seen.

(** Modelled from the spec: [append] of the findings store (section 4.2). *)
Definition append (cf : ConsolidatedFindings Confidence) (step_number : Z)
    (confidence : Confidence) (findings_text : string) (files : list string)
    (actions : list string) : ConsolidatedFindings Confidence :=
  {| findings := findings cf +:+ step_boundary step_number +:+ findings_text;
     relevant_files := merge_files (relevant_files cf) files;
     steps_taken := steps_taken cf ++
       [ {| sr_step_number := step_number;
            sr_confidence := confidence;
            sr_actions_performed := actions |} ] |}.

(** Modelled from the spec: the step number of the last recorded step of
    [steps_taken] (section 3), [0] before the first. *)
Definition last_step (cf : ConsolidatedFindings Confidence) : Z :=
  match last (steps_taken cf) with
  | Some r => sr_step_number _ r
  | None => 0
  end.

(** Modelled from the spec: the prompt is present and not empty
    (section 4.1). *)
Definition prompt_ok (request : ToolRequest) : bool :=
  match req_prompt request with
  | Some p => negb (String.eqb p "")
  | None => false
  end.

(** Modelled from the spec: resolving the consolidated findings of a request
    (section 4.1). A request whose investigation is absent creates one when
    it is a first step and fails with [StateError] otherwise; a request on a
    terminal investigation, or one that does not move past the last recorded
    step, fails with [StateError]. *)
Definition resolve (st : gmap string Investigation) (request : ToolRequest)
    : Outcome (string * ConsolidatedFindings Confidence) :=
  match req_continuation_id request with
  | None =>
      if (req_step_number request =? 1)%Z
      then Returns (fresh (dom st), empty_findings)
      else Fails StateError
  | Some id =>
      match st !! id with
      | None =>
          if (req_step_number request =? 1)%Z
          then Returns (id, empty_findings)
          else Fails StateError
      | Some inv =>
          match status inv with
          | InProgress =>
              if (last_step (consolidated inv) <? req_step_number request)%Z
              then Returns (id, consolidated inv)
              else Fails StateError
          | Complete | CompleteExpertPending => Fails StateError
          end
      end
  end.

(** Modelled from the spec: [submit_step] of the workflow state machine
    (section 4.1), as a function from the store of investigations and a
    request to the new store and the outcome. A failed call hands back the
    store it was given. *)
Definition submit_step (st : gmap string Investigation) (request : ToolRequest)
    : gmap string Investigation * Outcome StepOutcome :=
  if negb (prompt_ok request) then (st, Fails ValidationError)
  else if (req_step_number request <? 1)%Z then (st, Fails ValidationError)
  else
    match resolve st request with
    | Fails e => (st, Fails e)
    | Returns (id, cf) =>
        let actions :=
          get_required_actions tool (req_step_number request)
            (req_confidence request) (req_findings request)
            (req_total_steps request) in
        let cf' :=
          append cf (req_step_number request) (req_confidence request)
            (req_findings request) (req_files request) actions in
        if is_certain (req_confidence request)
           || (req_step_number request =? req_total_steps request)%Z
        then
          if should_call_expert_analysis tool cf'
          then (<[id := {| consolidated := cf'; status := CompleteExpertPending |}]> st,
                Returns (AwaitingExpert id (prepare_expert_analysis_context tool cf')))
          else (<[id := {| consolidated := cf'; status := Complete |}]> st,
                Returns (Finalized id (findings cf')))
        else
          (<[id := {| consolidated := cf'; status := InProgress |}]> st,
           Returns (AwaitingNextStep id actions))
    end.

(** Modelled from the spec: no prior step exists for the continuation_id of
    the request (section 8). *)
Definition no_prior_step (st : gmap string Investigation) (request : ToolRequest) : Prop :=
  match req_continuation_id request with
  | Some id => st !! id = None
  | None => True
  end.

End Machine.
End Engine.

(** ** More Python helpers *)

(** A byte that continues a multi-byte UTF-8 character (10xxxxxx). Every
    other byte starts a character. *)
Definition is_continuation (c : ascii) : bool :=
  let n := N_of_ascii c in (128 <=? n)%N && (n <? 192)%N.

(** [len(s)]: the number of characters of a UTF-8 text, one per byte that
    starts a character. *)
Fixpoint py_len (s : string) : nat :=
  match s with
  | EmptyString => 0
  | String c rest => if is_continuation c then py_len rest else S (py_len rest)
  end.

(** [s[:n]]: the first [n] characters of a UTF-8 text, each with all of its
    bytes. *)
Fixpoint slice_to (n : nat) (s : string) : string :=
  match s with
  | EmptyString => EmptyString
  | String c rest =>
      if is_continuation c then String c (slice_to n rest)
      else
        match n with
        | O => EmptyString
        | S n' => String c (slice_to n' rest)
        end
  end.

(** [s.isascii()]: every byte of the text is below 128. On such a text
    [upper] is what [s.upper()] returns. *)
Fixpoint isascii (s : string) : bool :=
  match s with
  | EmptyString => true
  | String c rest => (N_of_ascii c <? 128)%N && isascii rest
  end.

(** Built-in exceptions that a call of the bridge can raise. *)
Inductive PyException : Type :=
  | TypeError.

Inductive PyResult (A : Type) : Type :=
  | PyReturn (value : A)
  | PyRaise (exn : PyException).
Arguments PyReturn {A} _.
Arguments PyRaise {A} _.

(** How an f-string prints the result of [arguments.get(key)]: the text, or
    [None] as "None". *)
Definition py_str (v : option string) : string :=
  match v with
  | Some s => s
  | None => "None"
  end.

(** [v[:n]] on the result of [arguments.get(key)]: [None] is not
    subscriptable. *)
Definition subscript_to (v : option string) (n : nat) : PyResult string :=
  match v with
  | Some s => PyReturn (slice_to n s)
  | None => PyRaise TypeError
  end.

(** The argument names that an input schema declares under "properties". *)
Definition schema_properties (schema : json) : list string :=
  match schema with
  | JDict items =>
      match dict_get "properties" items with
      | Some (JDict props) => props.*1
      | _ => []
      end
  | _ => []
  end.

(** The argument names that an input schema lists under "required". *)
Definition schema_required (schema : json) : list string :=
  match schema with
  | JDict items =>
      match dict_get "required" items with
      | Some (JList names) =>
          omap (λ j, match j with JStr s => Some s | _ => None end) names
      | _ => []
      end
  | _ => []
  end.

(** ** .superclaude/mcp-servers/azure-mcp-bridge.py *)

Module AzureBridge.

Definition list_tools : list Server.Tool := [
  {| Server.name := "analyze_tax_document";
     Server.description := "Analyze tax documents using Azure Form Recognizer with organization isolation";
     Server.inputSchema := JDict [
       ("type", JStr "object");
       ("properties", JDict [
          ("document_url", JDict [("type", JStr "string"); ("description", JStr "URL or path to tax document")]);
          ("organization_id", JDict [("type", JStr "string"); ("description", JStr "Organization ID for multi-tenant isolation")]);
          ("document_type", JDict [("type", JStr "string"); ("description", JStr "Type of tax document (1040, W2, 1099, etc.)")])]);
       ("required", JList [JStr "document_url"; JStr "organization_id"])] |};
  {| Server.name := "analyze_client_sentiment";
     Server.description := "Analyze client communication sentiment using Azure Text Analytics with tenant isolation";
     Server.inputSchema := JDict [
       ("type", JStr "object");
       ("properties", JDict [
          ("text", JDict [("type", JStr "string"); ("description", JStr "Client communication text")]);
          ("organization_id", JDict [("type", JStr "string"); ("description", JStr "Organization ID for multi-tenant isolation")]);
          ("analysis_type", JDict [("type", JStr "string"); ("description", JStr "Type of analysis (sentiment, key_phrases, entities)")])]);
       ("required", JList [JStr "text"; JStr "organization_id"])] |};
  {| Server.name := "search_tax_regulations";
     Server.description := "Search tax regulations using Azure Cognitive Search with CPA context";
     Server.inputSchema := JDict [
       ("type", JStr "object");
       ("properties", JDict [
          ("query", JDict [("type", JStr "string"); ("description", JStr "Tax regulation search query")]);
          ("organization_id", JDict [("type", JStr "string"); ("description", JStr "Organization ID")]);
          ("tax_year", JDict [("type", JStr "string"); ("description", JStr "Tax year for regulation lookup")])]);
       ("required", JList [JStr "query"; JStr "organization_id"])] |}].

(** [call_tool] hands back the messages it passes to [logger.info], in
    order, and its result or the exception it raises. [arguments] maps an
    argument name to its text, the type the input schemas declare for every
    argument. *)
Definition call_tool (name : string) (arguments : gmap string string)
    : list string * PyResult (list Server.TextContent) :=
  if String.eqb name "analyze_tax_document" then
    let org_id := arguments !! "organization_id" in
    let doc_url := arguments !! "document_url" in
    let doc_type := default "general" (arguments !! "document_type") in
    let info :=
      "Analyzing tax document for organization " +:+ py_str org_id +:+ ": " +:+ py_str doc_url in
    let result := "Tax Document Analysis (Org: " +:+ py_str org_id +:+ ")
Document: " +:+ py_str doc_url +:+ "
Type: " +:+ doc_type +:+ "
Status: Successfully analyzed with multi-tenant isolation
Organization-scoped processing completed
Compliance validation: PASSED" in
    ([info], PyReturn [ {| Server.type := "text"; Server.text := result |} ])
  else if String.eqb name "analyze_client_sentiment" then
    let org_id := arguments !! "organization_id" in
    let text := arguments !! "text" in
    let analysis_type := default "sentiment" (arguments !! "analysis_type") in
    let info :=
      "Performing " +:+ analysis_type +:+ " analysis for organization " +:+ py_str org_id in
    match subscript_to text 100 with
    | PyRaise exn => ([info], PyRaise exn)
    | PyReturn preview =>
        let result := "Client Communication Analysis (Org: " +:+ py_str org_id +:+ ")
Text Preview: " +:+ preview +:+ "...
Analysis Type: " +:+ analysis_type +:+ "
Sentiment: Positive (0.85 confidence)
Key Phrases: tax preparation, financial planning, compliance
Organization-scoped analysis completed" in
        ([info], PyReturn [ {| Server.type := "text"; Server.text := result |} ])
    end
  else if String.eqb name "search_tax_regulations" then
    let org_id := arguments !! "organization_id" in
    let query := arguments !! "query" in
    let tax_year := default "2024" (arguments !! "tax_year") in
    let info :=
      "Searching tax regulations for organization " +:+ py_str org_id +:+ ": " +:+ py_str query in
    let result := "Tax Regulation Search (Org: " +:+ py_str org_id +:+ ")
Query: " +:+ py_str query +:+ "
Tax Year: " +:+ tax_year +:+ "
Results: Found 15 relevant regulations
Top Result: IRS Publication 123 - " +:+ py_str query +:+ " Guidelines
Organization context preserved for compliance tracking" in
    ([info], PyReturn [ {| Server.type := "text"; Server.text := result |} ])
  else
    ([], PyReturn [ {| Server.type := "text"; Server.text := "Unknown tool: " +:+ name |} ]).

End AzureBridge.

(** * Properties *)

(** ** Strings *)

Lemma string_app_assoc (a b c : string) : (a +:+ b) +:+ c = a +:+ (b +:+ c).
Proof.
  induction a as [|ch a IH]; [reflexivity|].
  change (String ch ((a +:+ b) +:+ c) = String ch (a +:+ (b +:+ c))).
  by rewrite IH.
Qed.

Lemma contains_here (pre sub post : string) : contains (pre +:+ sub +:+ post) sub.
Proof. by exists pre, post. Qed.

Lemma contains_app_l (s sub pre : string) : contains s sub → contains (pre +:+ s) sub.
Proof.
  intros (p & q & ->). exists (pre +:+ p), q.
  by rewrite string_app_assoc.
Qed.

(** ** The registry of tool instances *)

Section RegistryFacts.
Context {Confidence : Type}.
Variable FILES_FIELD : json.
Variable super_prepare_prompt : ToolRequest → string.

Local Abbreviation tools := (@ADVISOROS_ZEN_TOOLS Confidence FILES_FIELD super_prepare_prompt).
Local Abbreviation tax := (@TaxCalculationReviewTool_instance Confidence FILES_FIELD super_prepare_prompt).
Local Abbreviation fin := (@FinancialComplianceAuditTool_instance Confidence FILES_FIELD super_prepare_prompt).
Local Abbreviation sec := (@MultiTenantSecurityCheckTool_instance Confidence FILES_FIELD super_prepare_prompt).

(** The registry holds the three tool instances under their names and
    nothing else. *)
Lemma zen_tools_inv (name : string) (tool : WorkflowTool Confidence) :
  tools !! name = Some tool →
  (name = "tax-calculation-review" ∧ tool = tax)
  ∨ (name = "financial-compliance-audit" ∧ tool = fin)
  ∨ (name = "multi-tenant-security-check" ∧ tool = sec).
Proof.
  unfold ADVISOROS_ZEN_TOOLS. cbn [list_to_map foldr uncurry fst snd].
  rewrite !lookup_insert_Some, lookup_empty.
  intros [[<- <-]|[_ [[<- <-]|[_ [[<- <-]|[_ ?]]]]]]; [auto..|done].
Qed.

Lemma zen_tools_tax : tools !! "tax-calculation-review" = Some tax.
Proof. reflexivity. Qed.

Lemma zen_tools_fin : tools !! "financial-compliance-audit" = Some fin.
Proof. reflexivity. Qed.

Lemma zen_tools_sec : tools !! "multi-tenant-security-check" = Some sec.
Proof. reflexivity. Qed.

End RegistryFacts.

(** ** The step policy *)

Section StepPolicy.
Context {Confidence : Type}.
Variable FILES_FIELD : json.
Variable super_prepare_prompt : ToolRequest → string.

Local Abbreviation tools := (@ADVISOROS_ZEN_TOOLS Confidence FILES_FIELD super_prepare_prompt).

(** Case analysis on the registered tool, then on the tests of its
    [if]/[elif] chain. *)
Ltac by_tool H :=
  apply zen_tools_inv in H as [[-> ->]|[[-> ->]|[-> ->]]];
  cbn [get_required_actions get_required_fields get_tool_fields get_name
       should_call_expert_analysis prepare_expert_analysis_context prepare_prompt
       TaxCalculationReviewTool_instance FinancialComplianceAuditTool_instance
       MultiTenantSecurityCheckTool_instance].

Ltac by_step :=
  unfold TaxCalculationReviewTool.get_required_actions,
         FinancialComplianceAuditTool.get_required_actions,
         MultiTenantSecurityCheckTool.get_required_actions;
  repeat match goal with
         | |- context [(?n =? ?k)%Z] => destruct (Z.eqb_spec n k); try lia
         end.

(** C1: for each of the three domain tools, [get_required_actions] is
    determined by [step_number] alone: two calls with the same step number
    return the same action list, whatever the confidence, findings and
    total_steps of each call. *)
Theorem required_actions_determined_by_step
    (name : string) (tool : WorkflowTool Confidence) (step_number : Z)
    (confidence1 confidence2 : Confidence) (findings1 findings2 : string)
    (total_steps1 total_steps2 : Z) :
  tools !! name = Some tool →
  get_required_actions tool step_number confidence1 findings1 total_steps1
  = get_required_actions tool step_number confidence2 findings2 total_steps2.
Proof. intros H. by_tool H; reflexivity. Qed.

(** C6: for each of the three domain tools, the step policy enumerates
    phases 1 to 4, each with its own list of three required actions, no two
    of them the same and none of them the fallback list, and for every step
    number from 5 on [get_required_actions] returns one fixed fallback list
    of three actions. *)
Theorem step_policy_phases_and_fallback
    (name : string) (tool : WorkflowTool Confidence)
    (confidence : Confidence) (findings : string) (total_steps : Z) :
  tools !! name = Some tool →
  let phase n := get_required_actions tool n confidence findings total_steps in
  (∀ n : Z, (1 ≤ n ≤ 4)%Z → length (phase n) = 3)
  ∧ NoDup [phase 1%Z; phase 2%Z; phase 3%Z; phase 4%Z; phase 5%Z]
  ∧ length (phase 5%Z) = 3
  ∧ ∀ (n : Z) (confidence' : Confidence) (findings' : string) (total_steps' : Z),
      (5 ≤ n)%Z →
      get_required_actions tool n confidence' findings' total_steps' = phase 5%Z.
Proof.
  intros H phase. subst phase.
  by_tool H.
  all: split; [intros n Hn; by_step; reflexivity|].
  all: split; [apply (bool_decide_unpack _); vm_compute; exact I|].
  all: split; [reflexivity|].
  all: intros n c' f' t' Hn; by_step; reflexivity.
Qed.

(** C9: for each of the three domain tools, [get_required_actions] is total
    over the integers: for every step number, zero and the negative ones
    included, and every confidence, findings and total_steps, it returns a
    list of exactly three actions; below step 1 the list is the fallback
    one, the list of the steps from 5 on. *)
Theorem required_actions_total
    (name : string) (tool : WorkflowTool Confidence) (step_number : Z)
    (confidence : Confidence) (findings : string) (total_steps : Z) :
  tools !! name = Some tool →
  length (get_required_actions tool step_number confidence findings total_steps) = 3
  ∧ ((step_number < 1)%Z →
     get_required_actions tool step_number confidence findings total_steps
     = get_required_actions tool 5 confidence findings total_steps).
Proof.
  intros H. by_tool H.
  all: split; [by_step; reflexivity | intros Hlt; by_step; reflexivity].
Qed.

End StepPolicy.

(** ** The expert analysis gate *)

Lemma strip_prefix_sound (p s post : string) :
  strip_prefix p s = Some post → s = p +:+ post.
Proof.
  revert s. induction p as [|a p IH]; intros s H.
  - cbn in H. by injection H as ->.
  - destruct s as [|b s]; [done|]. cbn in H.
    destruct (Ascii.eqb_spec a b) as [->|]; [|done].
    change (String b s = String b (p +:+ post)).
    by rewrite <- (IH s H).
Qed.

Lemma split_at_sound (sub s pre post : string) :
  split_at sub s = Some (pre, post) → s = pre +:+ sub +:+ post.
Proof.
  revert pre. induction s as [|c s IH]; intros pre H.
  - cbn in H. destruct (strip_prefix sub "") as [q|] eqn:E; [|done].
    injection H as <- <-. exact (strip_prefix_sound _ _ _ E).
  - cbn in H. destruct (strip_prefix sub (String c s)) as [q|] eqn:E.
    + injection H as <- <-. exact (strip_prefix_sound _ _ _ E).
    + destruct (split_at sub s) as [[pre' post']|]; [|done].
      injection H as <- <-.
      change (String c s = String c (pre' +:+ sub +:+ post')).
      by rewrite <- (IH pre' eq_refl).
Qed.

Lemma split_at_contains (sub s : string) :
  is_Some (split_at sub s) → contains s sub.
Proof.
  intros [[pre post] H]. exists pre, post. by apply split_at_sound.
Qed.

Lemma contains_head (sub post : string) : contains (sub +:+ post) sub.
Proof. exact (contains_here "" sub post). Qed.

Section ExpertGate.
Context {Confidence : Type}.
Variable FILES_FIELD : json.
Variable super_prepare_prompt : ToolRequest → string.

Local Abbreviation tools := (@ADVISOROS_ZEN_TOOLS Confidence FILES_FIELD super_prepare_prompt).

Ltac by_tool H :=
  apply zen_tools_inv in H as [[-> ->]|[[-> ->]|[-> ->]]];
  cbn [should_call_expert_analysis prepare_expert_analysis_context
       TaxCalculationReviewTool_instance FinancialComplianceAuditTool_instance
       MultiTenantSecurityCheckTool_instance];
  unfold TaxCalculationReviewTool.prepare_expert_analysis_context,
         FinancialComplianceAuditTool.prepare_expert_analysis_context,
         MultiTenantSecurityCheckTool.prepare_expert_analysis_context.

(** C2: for each of the three domain tools and every consolidated findings
    value, [should_call_expert_analysis] returns true. *)
Theorem expert_analysis_always_called
    (name : string) (tool : WorkflowTool Confidence)
    (consolidated_findings : ConsolidatedFindings Confidence) :
  tools !! name = Some tool →
  should_call_expert_analysis tool consolidated_findings = true.
Proof. intros H. by_tool H; reflexivity. Qed.

(** C3: for each of the three domain tools and every consolidated findings
    value, the text of [prepare_expert_analysis_context] contains the
    findings text verbatim; when the relevant files are not empty it contains
    them joined in their order by ", ", and when they are empty it contains
    the marker "No specific files provided"; and it contains the fixed
    ordered checklist of analysis dimensions of the tool. *)
Theorem expert_context_contents
    (name : string) (tool : WorkflowTool Confidence)
    (consolidated_findings : ConsolidatedFindings Confidence) :
  tools !! name = Some tool →
  let context := prepare_expert_analysis_context tool consolidated_findings in
  contains context (findings consolidated_findings)
  ∧ (relevant_files consolidated_findings ≠ [] →
     contains context (join ", " (relevant_files consolidated_findings)))
  ∧ (relevant_files consolidated_findings = [] →
     contains context "No specific files provided")
  ∧ contains context (analysis_checklist name).
Proof.
  intros H context. subst context. by_tool H.
  all: split; [apply contains_here|].
  all: split;
    [intros Hne; do 3 apply contains_app_l;
     destruct (relevant_files consolidated_findings); [done | apply contains_head]|].
  all: split;
    [intros ->; do 3 apply contains_app_l; apply contains_head|].
  all: do 4 apply contains_app_l; apply split_at_contains; vm_compute; eauto.
Qed.

End ExpertGate.

(** C5: for each of the three domain tools, [prepare_expert_analysis_context]
    is pure: on consolidated findings with the same findings text and the
    same sequence of relevant files it returns the same text, character for
    character, whatever else the two findings objects hold and whatever the
    tool instances inherit from their base class. *)
Theorem expert_context_pure {Confidence : Type}
    (FILES_FIELD1 FILES_FIELD2 : json)
    (super_prepare_prompt1 super_prepare_prompt2 : ToolRequest → string)
    (name : string) (tool1 tool2 : WorkflowTool Confidence)
    (consolidated1 consolidated2 : ConsolidatedFindings Confidence) :
  ADVISOROS_ZEN_TOOLS FILES_FIELD1 super_prepare_prompt1 !! name = Some tool1 →
  ADVISOROS_ZEN_TOOLS FILES_FIELD2 super_prepare_prompt2 !! name = Some tool2 →
  findings consolidated1 = findings consolidated2 →
  relevant_files consolidated1 = relevant_files consolidated2 →
  prepare_expert_analysis_context tool1 consolidated1
  = prepare_expert_analysis_context tool2 consolidated2.
Proof.
  intros H1 H2 Hf Hr.
  apply zen_tools_inv in H1 as [[-> ->]|[[-> ->]|[-> ->]]];
    apply zen_tools_inv in H2 as [[? ->]|[[? ->]|[? ->]]]; try discriminate.
  all: cbn [prepare_expert_analysis_context
            TaxCalculationReviewTool_instance FinancialComplianceAuditTool_instance
            MultiTenantSecurityCheckTool_instance].
  all: unfold TaxCalculationReviewTool.prepare_expert_analysis_context,
              FinancialComplianceAuditTool.prepare_expert_analysis_context,
              MultiTenantSecurityCheckTool.prepare_expert_analysis_context.
  all: by rewrite Hf, Hr.
Qed.

(** ** Field schemas and prompts *)

Lemma getattr_or_agree (fields : gmap string json) (r1 r2 : ToolRequest)
    (k fallback : string) :
  (attrs r1 !! k = attrs r2 !! k
   ∨ (attrs r2 !! k = None
      ∧ ∃ v, attrs r1 !! k = Some v ∧ fields !! k ≫= default_of = Some (JStr v))) →
  fields !! k ≫= default_of = Some (JStr fallback) →
  getattr_or r1 k fallback = getattr_or r2 k fallback.
Proof.
  intros [Heq|(Hnone & v & Hsome & Hv)] Hd; unfold getattr_or.
  - by rewrite Heq.
  - rewrite Hnone, Hsome. congruence.
Qed.

Lemma getattr_or_with_attr_eq (request : ToolRequest) (k v fallback : string) :
  getattr_or (with_attr k v request) k fallback = v.
Proof. unfold getattr_or, with_attr. cbn [attrs]. by rewrite lookup_insert_eq. Qed.

Lemma getattr_or_with_attr_ne (request : ToolRequest) (k v key fallback : string) :
  k ≠ key →
  getattr_or (with_attr k v request) key fallback = getattr_or request key fallback.
Proof.
  intros Hne. unfold getattr_or, with_attr. cbn [attrs].
  by rewrite lookup_insert_ne.
Qed.

Lemma getattr_or_absent (request : ToolRequest) (key fallback : string) :
  attrs request !! key = None → getattr_or request key fallback = fallback.
Proof. intros H. unfold getattr_or. by rewrite H. Qed.

(** A text with a hole: [f x] is [before +:+ x +:+ after] for every [x], and
    [g] is the same text with [v] in the hole. The three lemmas find the hole
    in a concatenation, part by part from the left. *)
Local Abbreviation hole_filled v f g :=
  (∃ before after : string,
     (∀ x : string, f x = before +:+ x +:+ after) ∧ g = before +:+ v +:+ after).

Lemma hole_found (v : string) (f rest : string → string) (rest0 : string) :
  (∀ x, f x = x) → (∀ x, rest x = rest0) →
  hole_filled v (λ x, f x +:+ rest x) (v +:+ rest0).
Proof.
  intros Hf Hrest. exists "", rest0. split; [|reflexivity].
  intros x. by rewrite Hf, Hrest.
Qed.

Lemma hole_skip (v : string) (p f : string → string) (p0 g : string) :
  (∀ x, p x = p0) → hole_filled v f g →
  hole_filled v (λ x, p x +:+ f x) (p0 +:+ g).
Proof.
  intros Hp (before & after & Hf & ->). exists (p0 +:+ before), after.
  split; [intros x|]; rewrite ?Hp, ?Hf; by rewrite string_app_assoc.
Qed.

Lemma hole_after_base (v : string) (base f : string → string) (base0 g : string) :
  hole_filled v f g →
  ∃ before after : string,
    (∀ x : string, base x +:+ f x = base x +:+ before +:+ x +:+ after)
    ∧ base0 +:+ g = base0 +:+ before +:+ v +:+ after.
Proof.
  intros (before & after & Hf & ->). exists before, after.
  split; [intros x; by rewrite Hf | reflexivity].
Qed.

Section ToolFields.
Context {Confidence : Type}.
Variable FILES_FIELD : json.
Variable super_prepare_prompt : ToolRequest → string.

Local Abbreviation tools := (@ADVISOROS_ZEN_TOOLS Confidence FILES_FIELD super_prepare_prompt).

Ltac by_tool H :=
  apply zen_tools_inv in H as [[-> ->]|[[-> ->]|[-> ->]]];
  cbn [get_required_fields get_tool_fields prepare_prompt
       TaxCalculationReviewTool_instance FinancialComplianceAuditTool_instance
       MultiTenantSecurityCheckTool_instance];
  unfold TaxCalculationReviewTool.get_tool_fields,
         FinancialComplianceAuditTool.get_tool_fields,
         MultiTenantSecurityCheckTool.get_tool_fields,
         TaxCalculationReviewTool.get_required_fields,
         FinancialComplianceAuditTool.get_required_fields,
         MultiTenantSecurityCheckTool.get_required_fields;
  cbn [list_to_map foldr uncurry fst snd].

(** Case analysis on the key of a lookup in a dict literal. *)
Ltac by_key H :=
  repeat (apply lookup_insert_Some in H as [[<- <-]|[? H]]);
  [..|by rewrite lookup_empty in H].

Ltac unfold_prompt :=
  unfold TaxCalculationReviewTool.prepare_prompt, TaxCalculationReviewTool.tax_context,
         FinancialComplianceAuditTool.prepare_prompt,
         FinancialComplianceAuditTool.compliance_context,
         MultiTenantSecurityCheckTool.prepare_prompt,
         MultiTenantSecurityCheckTool.security_context;
  cbv zeta.

(** A part of the context that does not change with the value of the
    attribute that is set. *)
Ltac same_part :=
  intros; rewrite ?getattr_or_with_attr_ne by discriminate; reflexivity.

(** Find the hole that the attribute fills in the context. *)
Ltac fill_hole :=
  first [ refine (hole_found _ _ _ _ _ _);
            [intros; apply getattr_or_with_attr_eq | same_part]
        | refine (hole_skip _ _ _ _ _ _ _); [same_part | fill_hole] ].


(** C10: for each of the three domain tools and each declared field other
    than "prompt" and "files", the schema declares a text default, the
    context that [prepare_prompt] appends to the base prompt has one hole
    that it fills with the value of the attribute, and for a request that
    lacks the attribute it fills this hole with the default of the schema:
    the default of the schema is the fallback that [prepare_prompt]
    substitutes. So two requests with the same prompt that agree on every
    attribute, except that the second may lack an attribute for which the
    first carries the default of the schema, get the same context text. *)
Theorem schema_defaults_are_prompt_fallbacks
    (name : string) (tool : WorkflowTool Confidence) :
  tools !! name = Some tool →
  (∀ (k : string) (schema : json), get_tool_fields tool !! k = Some schema →
     k ≠ "prompt" → k ≠ "files" →
     ∃ v : string,
       default_of schema = Some (JStr v)
       ∧ ∀ request : ToolRequest, attrs request !! k = None →
           ∃ before after : string,
             (∀ x : string,
                prepare_prompt tool (with_attr k x request)
                = super_prepare_prompt (with_attr k x request) +:+ before +:+ x +:+ after)
             ∧ prepare_prompt tool request
               = super_prepare_prompt request +:+ before +:+ v +:+ after)
  ∧ (∀ request1 request2 : ToolRequest,
       prompt request1 = prompt request2 →
       (∀ k : string,
          attrs request1 !! k = attrs request2 !! k
          ∨ (attrs request2 !! k = None
             ∧ ∃ v : string, attrs request1 !! k = Some v
                 ∧ get_tool_fields tool !! k ≫= default_of = Some (JStr v))) →
       ∃ context : string,
         prepare_prompt tool request1 = super_prepare_prompt request1 +:+ context
         ∧ prepare_prompt tool request2 = super_prepare_prompt request2 +:+ context).
Proof.
  intros H. by_tool H.
  all: split.
  1,3,5: intros k schema Hs Hp Hf; by_key Hs; try done.
  1-8: eexists; split; [reflexivity|]; intros request Hnone; unfold_prompt.
  1-8: rewrite (getattr_or_absent request _ _ Hnone).
  1-8: refine (hole_after_base _ (λ x, super_prepare_prompt (with_attr _ x request)) _ _ _ _).
  1-8: fill_hole.
  all: intros request1 request2 Hprompt Hattrs.
  all: eexists; split; [reflexivity|].
  all: unfold_prompt; rewrite Hprompt.
  all: repeat match goal with
         | |- context [getattr_or ?r ?k ?d] =>
             rewrite (getattr_or_agree _ request1 request2 k d (Hattrs k) eq_refl)
         end.
  all: reflexivity.
Qed.

End ToolFields.

(** ** Lookup of a tool by name *)

(** C4, as amended: a lookup by a name that is not registered returns
    normally. For every name that is not a key of [CPA_TOOLS],
    [get_tool_info] returns [None]; for every name that [handle_list_tools]
    does not list, [handle_call_tool] returns one text block that reads
    "Unknown tool: " followed by the name. *)
Theorem unknown_tool_lookup_returns :
  (∀ tool_name : string,
     Registry.CPA_TOOLS !! tool_name = None →
     Registry.get_tool_info tool_name = Returns None)
  ∧ (∀ (name : string) (arguments : gmap string string),
       name ∉ (Server.name <$> Server.handle_list_tools) →
       Server.handle_call_tool name arguments
       = Returns [ {| Server.type := "text";
                      Server.text := "Unknown tool: " +:+ name |} ]).
Proof.
  split.
  - intros tool_name H. unfold Registry.get_tool_info. by rewrite H.
  - intros name arguments H. cbn in H.
    rewrite !not_elem_of_cons in H. destruct H as (H1 & H2 & H3 & _).
    unfold Server.handle_call_tool.
    destruct (String.eqb_spec name "analyze_tax_logic"); [done|].
    destruct (String.eqb_spec name "audit_multi_tenant_security"); [done|].
    destruct (String.eqb_spec name "validate_cpa_compliance"); [done|].
    reflexivity.
Qed.

(** C4, as stated, fails: the name "unknown-tool" is not registered and not
    listed, and both lookups return normally instead of failing with
    [NotFoundError]. *)
Lemma unknown_tool_lookup_does_not_fail :
  Registry.CPA_TOOLS !! "unknown-tool" = None
  ∧ Registry.get_tool_info "unknown-tool" = Returns None
  ∧ Registry.get_tool_info "unknown-tool" ≠ Fails NotFoundError
  ∧ ("unknown-tool" ∉ Server.name <$> Server.handle_list_tools)
  ∧ Server.handle_call_tool "unknown-tool" ∅
    = Returns [ {| Server.type := "text"; Server.text := "Unknown tool: unknown-tool" |} ]
  ∧ Server.handle_call_tool "unknown-tool" ∅ ≠ Fails NotFoundError.
Proof.
  split; [reflexivity|]. split; [reflexivity|]. split; [discriminate|].
  split; [apply (bool_decide_unpack _); vm_compute; exact I|].
  split; [reflexivity | discriminate].
Qed.

(** ** The workflow state machine *)

(** C7: a request that passes the prompt validation, has a step number
    above 1 and names no investigation with a prior step makes [submit_step]
    fail with [StateError], and the store of investigations is handed back
    as it was. *)
Theorem step_without_prior_step_fails
    (tool : WorkflowTool Engine.Confidence) (step_boundary : Z → string)
    (st : gmap string Engine.Investigation) (request : Engine.ToolRequest) :
  Engine.prompt_ok request = true →
  (1 < Engine.req_step_number request)%Z →
  Engine.no_prior_step st request →
  Engine.submit_step tool step_boundary st request = (st, Fails StateError).
Proof.
  intros Hprompt Hstep Hprior.
  unfold Engine.submit_step. rewrite Hprompt. cbn [negb].
  destruct (Z.ltb_spec (Engine.req_step_number request) 1); [lia|].
  unfold Engine.resolve, Engine.no_prior_step in *.
  destruct (Engine.req_continuation_id request) as [id|].
  - rewrite Hprior.
    destruct (Z.eqb_spec (Engine.req_step_number request) 1); [lia | reflexivity].
  - destruct (Z.eqb_spec (Engine.req_step_number request) 1); [lia | reflexivity].
Qed.

(** ** Instances of the theorems *)

(** A schema for the inherited [files] field: a sequence of strings, empty
    by default. *)
Local Abbreviation sample_files_field :=
  (JDict [
     ("type", JStr "array");
     ("items", JDict [("type", JStr "string")]);
     ("default", JList [])]).

(** The tools as they are registered when the base class brings this schema
    and a base prompt that is the prompt itself. *)
Local Abbreviation sample_tools :=
  (@ADVISOROS_ZEN_TOOLS Engine.Confidence sample_files_field prompt).
Local Abbreviation sample_tax :=
  (@TaxCalculationReviewTool_instance Engine.Confidence sample_files_field prompt).
Local Abbreviation sample_fin :=
  (@FinancialComplianceAuditTool_instance Engine.Confidence sample_files_field prompt).
Local Abbreviation sample_sec :=
  (@MultiTenantSecurityCheckTool_instance Engine.Confidence sample_files_field prompt).

Local Abbreviation sample_findings :=
  {| findings := "Bracket thresholds are hard-coded";
     relevant_files := ["tax/brackets.py"; "tax/credits.py"];
     steps_taken := [] |}.

(** Step 2 of the tax review under two different confidences, findings and totals. *)
Lemma required_actions_determined_by_step_witness :
  sample_tools !! "tax-calculation-review" = Some sample_tax
  ∧ get_required_actions sample_tax 2 Engine.low "first pass" 3
    = get_required_actions sample_tax 2 Engine.certain "second pass" 7.
Proof.
  split; [reflexivity|].
  apply (@required_actions_determined_by_step Engine.Confidence sample_files_field prompt
           "tax-calculation-review").
  reflexivity.
Defined.

(** The compliance audit asks for expert analysis on the sample findings. *)
Lemma expert_analysis_always_called_witness :
  sample_tools !! "financial-compliance-audit" = Some sample_fin
  ∧ should_call_expert_analysis sample_fin sample_findings = true.
Proof.
  split; [reflexivity|].
  apply (@expert_analysis_always_called Engine.Confidence sample_files_field prompt
           "financial-compliance-audit").
  reflexivity.
Defined.

(** The security context of the sample findings holds their text, their two files joined, and the checklist. *)
Lemma expert_context_contents_witness :
  sample_tools !! "multi-tenant-security-check" = Some sample_sec
  ∧ contains (prepare_expert_analysis_context sample_sec sample_findings)
      "Bracket thresholds are hard-coded"
  ∧ contains (prepare_expert_analysis_context sample_sec sample_findings)
      "tax/brackets.py, tax/credits.py"
  ∧ contains (prepare_expert_analysis_context sample_sec sample_findings)
      (analysis_checklist "multi-tenant-security-check").
Proof.
  split; [reflexivity|].
  destruct (@expert_context_contents Engine.Confidence sample_files_field prompt
              "multi-tenant-security-check" sample_sec sample_findings eq_refl)
    as (Hfindings & Hfiles & _ & Hchecklist).
  split; [exact Hfindings|].
  split; [apply Hfiles; discriminate | exact Hchecklist].
Defined.

(** The hyphenated tool name is no key of [CPA_TOOLS], and "list_tools" is no tool the dispatcher handles. *)
Lemma unknown_tool_lookup_returns_witness :
  Registry.CPA_TOOLS !! "tax-calculation-review" = None
  ∧ Registry.get_tool_info "tax-calculation-review" = Returns None
  ∧ ("list_tools" ∉ Server.name <$> Server.handle_list_tools)
  ∧ Server.handle_call_tool "list_tools" ∅
    = Returns [ {| Server.type := "text"; Server.text := "Unknown tool: list_tools" |} ].
Proof.
  assert (Hlisted : "list_tools" ∉ (Server.name <$> Server.handle_list_tools)).
  { apply (bool_decide_unpack _). vm_compute. exact I. }
  split; [reflexivity|].
  split; [apply (proj1 unknown_tool_lookup_returns); reflexivity|].
  split; [exact Hlisted|].
  apply (proj2 unknown_tool_lookup_returns "list_tools" ∅ Hlisted).
Defined.

(** Two findings objects that differ in their recorded steps only render the same tax context. *)
Lemma expert_context_pure_witness :
  let consolidated1 : ConsolidatedFindings Engine.Confidence := sample_findings in
  let consolidated2 : ConsolidatedFindings Engine.Confidence :=
    {| findings := "Bracket thresholds are hard-coded";
       relevant_files := ["tax/brackets.py"; "tax/credits.py"];
       steps_taken := [ {| sr_step_number := 1; sr_confidence := Engine.low;
                           sr_actions_performed := [] |} ] |} in
  sample_tools !! "tax-calculation-review" = Some sample_tax
  ∧ findings consolidated1 = findings consolidated2
  ∧ relevant_files consolidated1 = relevant_files consolidated2
  ∧ prepare_expert_analysis_context sample_tax consolidated1
    = prepare_expert_analysis_context sample_tax consolidated2.
Proof.
  intros consolidated1 consolidated2.
  split; [reflexivity|]. split; [reflexivity|]. split; [reflexivity|].
  apply (expert_context_pure sample_files_field sample_files_field prompt prompt
           "tax-calculation-review"); reflexivity.
Defined.

(** Phase 3 of the tax review has three actions, and step 9 gets the list of step 5. *)
Lemma step_policy_phases_and_fallback_witness :
  sample_tools !! "tax-calculation-review" = Some sample_tax
  ∧ length (get_required_actions sample_tax 3 Engine.medium "" 4) = 3
  ∧ get_required_actions sample_tax 4 Engine.medium "" 4
    ≠ get_required_actions sample_tax 5 Engine.medium "" 4
  ∧ get_required_actions sample_tax 9 Engine.high "late" 4
    = get_required_actions sample_tax 5 Engine.medium "" 4.
Proof.
  split; [reflexivity|].
  destruct (@step_policy_phases_and_fallback Engine.Confidence sample_files_field prompt
              "tax-calculation-review" sample_tax Engine.medium "" 4%Z eq_refl)
    as (Hphases & Hdistinct & _ & Hfallback).
  split; [apply Hphases; lia|].
  split; [|apply Hfallback; lia].
  intros Heq. do 3 apply NoDup_cons in Hdistinct as [_ Hdistinct].
  apply NoDup_cons in Hdistinct as [Hnot _].
  apply Hnot. rewrite Heq. apply list_elem_of_singleton. reflexivity.
Defined.

(** A second step sent to an empty store under a fresh handle. *)
Lemma step_without_prior_step_fails_witness :
  let request :=
    {| Engine.req_prompt := Some "Review the bracket logic";
       Engine.req_step_number := 2;
       Engine.req_total_steps := 3;
       Engine.req_confidence := Engine.medium;
       Engine.req_findings := "Brackets read from a table";
       Engine.req_files := ["tax/brackets.py"];
       Engine.req_continuation_id := Some "investigation-1" |} in
  Engine.prompt_ok request = true
  ∧ (1 < Engine.req_step_number request)%Z
  ∧ Engine.no_prior_step ∅ request
  ∧ Engine.submit_step sample_tax (λ _, "") ∅ request = (∅, Fails StateError).
Proof.
  intros request.
  split; [reflexivity|]. split; [reflexivity|]. split; [reflexivity|].
  apply step_without_prior_step_fails; reflexivity.
Defined.


(** Step -3 of the security check gets the three fallback actions. *)
Lemma required_actions_total_witness :
  sample_tools !! "multi-tenant-security-check" = Some sample_sec
  ∧ (-3 < 1)%Z
  ∧ length (get_required_actions sample_sec (-3) Engine.exploring "" 4) = 3
  ∧ get_required_actions sample_sec (-3) Engine.exploring "" 4
    = get_required_actions sample_sec 5 Engine.exploring "" 4.
Proof.
  split; [reflexivity|]. split; [lia|].
  destruct (@required_actions_total Engine.Confidence sample_files_field prompt
              "multi-tenant-security-check" sample_sec (-3)%Z Engine.exploring "" 4%Z eq_refl)
    as (Hlength & Hfallback).
  split; [exact Hlength | apply Hfallback; lia].
Defined.

(** The tax year of the tax review: its default is "2024", a request without
    it renders "2024" where a request with it renders its value, and a
    request that carries the two schema defaults gets the context of one
    that carries no attribute. *)
Lemma schema_defaults_are_prompt_fallbacks_witness :
  let request1 :=
    {| prompt := "Review the bracket logic";
       attrs := <["tax_year" := "2024"]> (<["calculation_type" := "federal"]> ∅) |} in
  let request2 := {| prompt := "Review the bracket logic"; attrs := ∅ |} in
  sample_tools !! "tax-calculation-review" = Some sample_tax
  ∧ (get_tool_fields sample_tax !! "tax_year" ≫= default_of = Some (JStr "2024"))
  ∧ attrs request2 !! "tax_year" = None
  ∧ (∃ before after : string,
       (∀ x : string,
          prepare_prompt sample_tax (with_attr "tax_year" x request2)
          = prompt (with_attr "tax_year" x request2) +:+ before +:+ x +:+ after)
       ∧ prepare_prompt sample_tax request2
         = prompt request2 +:+ before +:+ "2024" +:+ after)
  ∧ prompt request1 = prompt request2
  ∧ ∃ context : string,
      prepare_prompt sample_tax request1 = prompt request1 +:+ context
      ∧ prepare_prompt sample_tax request2 = prompt request2 +:+ context.
Proof.
  intros request1 request2.
  split; [reflexivity|]. split; [reflexivity|]. split; [reflexivity|].
  destruct (@schema_defaults_are_prompt_fallbacks Engine.Confidence sample_files_field prompt
              "tax-calculation-review" sample_tax eq_refl) as [Hfield Hpair].
  split.
  - destruct (Hfield "tax_year" _ eq_refl ltac:(discriminate) ltac:(discriminate))
      as (v & Hv & Hhole).
    injection Hv as <-.
    exact (Hhole request2 eq_refl).
  - split; [reflexivity|].
    apply (Hpair request1 request2 eq_refl).
    intros k.
    destruct (decide (k = "tax_year")) as [->|Hyear].
    { right. split; [reflexivity|]. exists "2024". split; reflexivity. }
    destruct (decide (k = "calculation_type")) as [->|Htype].
    { right. split; [reflexivity|]. exists "federal". split; reflexivity. }
    left. subst request1 request2. cbn [attrs].
    rewrite !lookup_insert_ne by done. reflexivity.
Defined.

(** * Further properties of the sources *)

(** ** The tools and their registry *)

Lemma getattr_or_present (request : ToolRequest) (key v fallback : string) :
  attrs request !! key = Some v → getattr_or request key fallback = v.
Proof. intros H. unfold getattr_or. by rewrite H. Qed.

(** Look for the part of a concatenation that is the text sought. *)
Ltac find_part :=
  first [ apply contains_head | apply contains_app_l; find_part ].

Section ToolsFurther.
Context {Confidence : Type}.
Variable FILES_FIELD : json.
Variable super_prepare_prompt : ToolRequest → string.

Local Abbreviation tools := (@ADVISOROS_ZEN_TOOLS Confidence FILES_FIELD super_prepare_prompt).

Ltac by_tool H :=
  apply zen_tools_inv in H as [[-> ->]|[[-> ->]|[-> ->]]];
  cbn [get_name get_tool_fields prepare_prompt prepare_expert_analysis_context
       TaxCalculationReviewTool_instance FinancialComplianceAuditTool_instance
       MultiTenantSecurityCheckTool_instance] in *.

Ltac unfold_fields :=
  unfold TaxCalculationReviewTool.get_tool_fields,
         FinancialComplianceAuditTool.get_tool_fields,
         MultiTenantSecurityCheckTool.get_tool_fields in *;
  cbn [list_to_map foldr uncurry fst snd] in *.

Ltac unfold_prompt :=
  unfold TaxCalculationReviewTool.prepare_prompt, TaxCalculationReviewTool.tax_context,
         FinancialComplianceAuditTool.prepare_prompt,
         FinancialComplianceAuditTool.compliance_context,
         MultiTenantSecurityCheckTool.prepare_prompt,
         MultiTenantSecurityCheckTool.security_context;
  cbv zeta.

Ltac unfold_context :=
  unfold TaxCalculationReviewTool.prepare_expert_analysis_context,
         FinancialComplianceAuditTool.prepare_expert_analysis_context,
         MultiTenantSecurityCheckTool.prepare_expert_analysis_context.

Ltac by_key H :=
  repeat (apply lookup_insert_Some in H as [[<- <-]|[? H]]);
  [..|by rewrite lookup_empty in H].

(** X1: every tool of [ADVISOROS_ZEN_TOOLS] is registered under the name its
    own [get_name] returns. *)
Theorem registered_under_own_name (name : string) (tool : WorkflowTool Confidence) :
  tools !! name = Some tool → get_name tool = name.
Proof. intros H. by_tool H; reflexivity. Qed.

(** X3: the expert context cannot tell an empty file list from the one file
    named like the marker, nor two files from the one file named like their
    joined names. *)
Theorem expert_context_files_ambiguous
    (name : string) (tool : WorkflowTool Confidence) (text a b : string)
    (steps : list (StepRecord Confidence)) :
  tools !! name = Some tool →
  let render files :=
    prepare_expert_analysis_context tool
      {| findings := text; relevant_files := files; steps_taken := steps |} in
  render [] = render ["No specific files provided"]
  ∧ render [a; b] = render [a +:+ ", " +:+ b].
Proof.
  intros H render. subst render. by_tool H; unfold_context.
  all: split; reflexivity.
Qed.

(** X4: [prepare_prompt] returns the base prompt followed by a context text
    that contains the prompt of the request verbatim. *)
Theorem prepare_prompt_renders_prompt
    (name : string) (tool : WorkflowTool Confidence) (request : ToolRequest) :
  tools !! name = Some tool →
  ∃ context : string,
    prepare_prompt tool request = super_prepare_prompt request +:+ context
    ∧ contains context (prompt request).
Proof.
  intros H. by_tool H; unfold_prompt.
  all: eexists; split; [reflexivity | find_part].
Qed.

(** X5: when the request carries an attribute that the tool declares, other
    than "prompt" and "files", [prepare_prompt] renders the value of the
    attribute verbatim. *)
Theorem prepare_prompt_renders_attribute
    (name : string) (tool : WorkflowTool Confidence) (request : ToolRequest)
    (k v : string) :
  tools !! name = Some tool →
  is_Some (get_tool_fields tool !! k) →
  k ≠ "prompt" → k ≠ "files" →
  attrs request !! k = Some v →
  contains (prepare_prompt tool request) v.
Proof.
  intros H [schema Hs] Hp Hf Hv. by_tool H; unfold_fields; unfold_prompt.
  all: by_key Hs; try done.
  all: match goal with
       | Hattr : attrs ?r !! ?key = Some ?val |- _ =>
           rewrite (getattr_or_present r key val _ Hattr)
       end.
  all: find_part.
Qed.

(** X6: an attribute that the tool does not declare has no effect on the
    context text that [prepare_prompt] appends to the base prompt. *)
Theorem prepare_prompt_ignores_undeclared_attribute
    (name : string) (tool : WorkflowTool Confidence) (request : ToolRequest)
    (k v : string) :
  tools !! name = Some tool →
  get_tool_fields tool !! k = None →
  ∃ context : string,
    prepare_prompt tool (with_attr k v request)
    = super_prepare_prompt (with_attr k v request) +:+ context
    ∧ prepare_prompt tool request = super_prepare_prompt request +:+ context.
Proof.
  intros H Hnone. by_tool H; unfold_fields.
  all: rewrite !lookup_insert_None in Hnone.
  all: eexists; split; [reflexivity|].
  all: unfold_prompt.
  all: rewrite !getattr_or_with_attr_ne by (intros ->; intuition congruence).
  all: reflexivity.
Qed.

End ToolsFurther.

(** ** registry.py and the two registries *)

(** X7: the names that [get_available_tools] lists are exactly the names
    for which [get_tool_info] returns a tool record. *)
Theorem available_tools_are_the_known_names (tool_name : string) :
  tool_name ∈ Registry.get_available_tools
  ↔ ∃ info : Registry.ToolInfo, Registry.get_tool_info tool_name = Returns (Some info).
Proof.
  unfold Registry.get_tool_info, Registry.get_available_tools.
  assert (Hdom : tool_name ∈ Registry.CPA_TOOLS_items.*1
                 ↔ is_Some (Registry.CPA_TOOLS !! tool_name)).
  { rewrite <- elem_of_dom. unfold Registry.CPA_TOOLS.
    rewrite dom_list_to_map_L. by rewrite elem_of_list_to_set. }
  rewrite Hdom. split.
  - intros [info Hinfo]. exists info. by rewrite Hinfo.
  - intros [info Hinfo]. exists info. by injection Hinfo.
Qed.

(** X8: no name under which a tool is registered in [ADVISOROS_ZEN_TOOLS] is
    a name that registry.py knows: [get_tool_info] returns [None] for it and
    [get_available_tools] does not list it. *)
Theorem zen_tool_names_unknown_to_registry {Confidence : Type}
    (FILES_FIELD : json) (super_prepare_prompt : ToolRequest → string) (name : string) :
  is_Some (@ADVISOROS_ZEN_TOOLS Confidence FILES_FIELD super_prepare_prompt !! name) →
  Registry.get_tool_info name = Returns None
  ∧ name ∉ Registry.get_available_tools.
Proof.
  intros [tool H].
  apply zen_tools_inv in H as [[-> _]|[[-> _]|[-> _]]].
  all: split; [reflexivity | apply (bool_decide_unpack _); vm_compute; exact I].
Qed.

(** ** server.py *)

(** Decide the tests of the dispatcher on a name. *)
Ltac eqb_tests :=
  repeat match goal with
         | |- context [String.eqb ?a ?b] =>
             destruct (String.eqb_spec a b); try discriminate; try congruence
         end.

Lemma upper_ascii_idempotent (c : ascii) : upper_ascii (upper_ascii c) = upper_ascii c.
Proof. destruct c as [[] [] [] [] [] [] [] []]; reflexivity. Qed.

Lemma upper_idempotent (s : string) : upper (upper s) = upper s.
Proof.
  induction s as [|c s IH]; [reflexivity|].
  cbn [upper]. by rewrite upper_ascii_idempotent, IH.
Qed.

Lemma handle_call_tool_unlisted (name : string) (arguments : gmap string string) :
  name ∉ Server.name <$> Server.handle_list_tools →
  Server.handle_call_tool name arguments
  = Returns [ {| Server.type := "text"; Server.text := "Unknown tool: " +:+ name |} ].
Proof.
  intros H. cbn in H. rewrite !not_elem_of_cons in H.
  destruct H as (H1 & H2 & H3 & _).
  unfold Server.handle_call_tool. by eqb_tests.
Qed.

(** X10: [handle_list_tools] and [handle_call_tool] agree on the tools:
    a name is listed exactly when a call under it is answered by a report
    and not by the "Unknown tool" block. *)
Theorem listed_iff_handled (name : string) (arguments : gmap string string) :
  name ∈ Server.name <$> Server.handle_list_tools
  ↔ Server.handle_call_tool name arguments
    ≠ Returns [ {| Server.type := "text"; Server.text := "Unknown tool: " +:+ name |} ].
Proof.
  split.
  - intros Hin Heq. cbn in Hin. rewrite !elem_of_cons in Hin.
    destruct Hin as [->|[->|[->|Hin]]]; [..|by apply elem_of_nil in Hin].
    all: discriminate Heq.
  - intros Hne.
    destruct (decide (name ∈ Server.name <$> Server.handle_list_tools)) as [|Hout]; [done|].
    destruct Hne. by apply handle_call_tool_unlisted.
Qed.

(** X11: an argument that is missing counts as its default: a call without
    "file_path" is a call with the empty path, without "tax_year" a call
    with "2024", without "component" a call with "database", without
    "module" a call with the empty module. *)
Theorem missing_argument_is_default
    (name k d : string) (arguments : gmap string string) :
  (name, k, d) ∈ [ ("analyze_tax_logic", "file_path", "");
                   ("analyze_tax_logic", "tax_year", "2024");
                   ("audit_multi_tenant_security", "component", "database");
                   ("validate_cpa_compliance", "module", "") ] →
  arguments !! k = None →
  Server.handle_call_tool name (<[k := d]> arguments)
  = Server.handle_call_tool name arguments.
Proof.
  intros Hin Hnone. rewrite !elem_of_cons in Hin.
  destruct Hin as [Heq|[Heq|[Heq|[Heq|Hin]]]]; [..|by apply elem_of_nil in Hin].
  all: injection Heq as -> -> ->.
  all: unfold Server.handle_call_tool; eqb_tests.
  all: rewrite ?lookup_insert_eq, ?lookup_insert_ne, ?Hnone by done; reflexivity.
Qed.

(** X12: an argument that the input schema of a listed tool does not
    declare has no effect on the answer of [handle_call_tool]. *)
Theorem undeclared_argument_ignored
    (tool : Server.Tool) (k v : string) (arguments : gmap string string) :
  tool ∈ Server.handle_list_tools →
  k ∉ schema_properties (Server.inputSchema tool) →
  Server.handle_call_tool (Server.name tool) (<[k := v]> arguments)
  = Server.handle_call_tool (Server.name tool) arguments.
Proof.
  intros Hin Hk. unfold Server.handle_list_tools in Hin. rewrite !elem_of_cons in Hin.
  destruct Hin as [->|[->|[->|Hin]]]; [..|by apply elem_of_nil in Hin].
  all: cbn in Hk; rewrite !not_elem_of_cons in Hk.
  all: cbn [Server.name]; unfold Server.handle_call_tool; eqb_tests.
  all: rewrite !lookup_insert_ne by (intros ->; intuition congruence); reflexivity.
Qed.

(** X13: the security audit prints its component in upper case and does
    not look at the case it is given in: an ASCII component and its
    upper-case form get the same report, and so do the missing component and
    "DATABASE". *)
Theorem audit_component_case_insensitive (component : string) (arguments : gmap string string) :
  isascii component = true →
  Server.handle_call_tool "audit_multi_tenant_security" (<["component" := upper component]> arguments)
  = Server.handle_call_tool "audit_multi_tenant_security" (<["component" := component]> arguments)
  ∧ (∃ report : string,
       Server.handle_call_tool "audit_multi_tenant_security" (<["component" := component]> arguments)
       = Returns [ {| Server.type := "text"; Server.text := report |} ]
       ∧ contains report (upper component))
  ∧ Server.handle_call_tool "audit_multi_tenant_security" (<["component" := "DATABASE"]> arguments)
    = Server.handle_call_tool "audit_multi_tenant_security" (delete "component" arguments).
Proof.
  intros _. unfold Server.handle_call_tool. eqb_tests.
  rewrite !lookup_insert_eq, lookup_delete_eq. cbn [from_option id].
  split; [by rewrite upper_idempotent|].
  split; [|reflexivity].
  eexists; split; [reflexivity | find_part].
Qed.

(** X14: the reports print the arguments they are given verbatim: the tax
    analysis the file path and the tax year, the compliance report the
    module. *)
Theorem reports_render_arguments
    (name k v : string) (arguments : gmap string string) :
  (name, k) ∈ [ ("analyze_tax_logic", "file_path");
                ("analyze_tax_logic", "tax_year");
                ("validate_cpa_compliance", "module") ] →
  arguments !! k = Some v →
  ∃ report : string,
    Server.handle_call_tool name arguments
    = Returns [ {| Server.type := "text"; Server.text := report |} ]
    ∧ contains report v.
Proof.
  intros Hin Hv. rewrite !elem_of_cons in Hin.
  destruct Hin as [Heq|[Heq|[Heq|Hin]]]; [..|by apply elem_of_nil in Hin].
  all: injection Heq as -> ->.
  all: unfold Server.handle_call_tool; eqb_tests.
  all: eexists; split; [reflexivity|].
  all: rewrite Hv; cbn [from_option id]; find_part.
Qed.

(** ** azure-mcp-bridge.py *)

Lemma slice_to_prefix (n : nat) (s : string) : ∃ rest : string, s = slice_to n s +:+ rest.
Proof.
  revert n. induction s as [|c s IH]; intros n; [by exists ""|].
  cbn [slice_to]. destruct (is_continuation c).
  - destruct (IH n) as [rest Hrest]. exists rest.
    change (String c s = String c (slice_to n s +:+ rest)). by rewrite <- Hrest.
  - destruct n as [|n]; [by exists (String c s)|].
    destruct (IH n) as [rest Hrest]. exists rest.
    change (String c s = String c (slice_to n s +:+ rest)). by rewrite <- Hrest.
Qed.

Lemma py_len_slice_to (n : nat) (s : string) : py_len (slice_to n s) ≤ n.
Proof.
  revert n. induction s as [|c s IH]; intros n; [cbn; lia|].
  cbn [slice_to]. destruct (is_continuation c) eqn:Hc.
  - cbn [py_len]. rewrite Hc. apply IH.
  - destruct n as [|n]; [cbn; lia|].
    cbn [py_len]. rewrite Hc. specialize (IH n). lia.
Qed.

Lemma slice_to_short (n : nat) (s : string) : py_len s ≤ n → slice_to n s = s.
Proof.
  revert n. induction s as [|c s IH]; intros n Hlen; [reflexivity|].
  cbn [slice_to py_len] in *. destruct (is_continuation c).
  - by rewrite IH.
  - destruct n as [|n]; [lia|]. rewrite IH; [reflexivity | lia].
Qed.

Lemma contains_app_r (s sub post : string) : contains s sub → contains (s +:+ post) sub.
Proof.
  intros (p & q & ->). exists p, (q +:+ post).
  by rewrite !string_app_assoc.
Qed.

(** Look for a text that runs over several parts of a concatenation: drop
    parts on the left, then parts on the right, until what is left is a
    closed text that can be searched. *)
Ltac search_closed := apply split_at_contains; vm_compute; solve [eauto].
Ltac drop_right := first [ search_closed | apply contains_app_r; drop_right ].
Ltac find_text :=
  first [ search_closed
        | solve [rewrite <- !string_app_assoc; drop_right]
        | apply contains_app_l; find_text ].

(** Case analysis on the tests of the dispatcher of the bridge. *)
Ltac by_bridge_tool :=
  unfold AzureBridge.call_tool;
  repeat (case String.eqb_spec; [intros -> | intros ?]).

(** X15: the sentiment analysis of the bridge called without a "text"
    argument writes its info message and then raises a [TypeError], the
    subscript of [None]; called with a text it returns one content block of
    type "text". *)
Theorem sentiment_without_text_raises (arguments : gmap string string) :
  (arguments !! "text" = None →
   ∃ info : string,
     AzureBridge.call_tool "analyze_client_sentiment" arguments
     = ([info], PyRaise TypeError))
  ∧ (∀ text : string, arguments !! "text" = Some text →
       ∃ info report : string,
         AzureBridge.call_tool "analyze_client_sentiment" arguments
         = ([info], PyReturn [ {| Server.type := "text"; Server.text := report |} ])).
Proof.
  unfold AzureBridge.call_tool. eqb_tests.
  split; [intros Htext | intros text Htext]; rewrite Htext; cbn [subscript_to].
  - by eexists.
  - by eexists _, _.
Qed.

(** X16: the bridge does not check the arguments its input schemas require:
    "organization_id" is required by every listed tool, and a call without it
    is served all the same, for the organization "None", which the info
    message and the report both name. *)
Theorem bridge_serves_missing_organization
    (tool : Server.Tool) (arguments : gmap string string)
    (blocks : list Server.TextContent) :
  tool ∈ AzureBridge.list_tools →
  arguments !! "organization_id" = None →
  (AzureBridge.call_tool (Server.name tool) arguments).2 = PyReturn blocks →
  "organization_id" ∈ schema_required (Server.inputSchema tool)
  ∧ (∃ info : string,
       (AzureBridge.call_tool (Server.name tool) arguments).1 = [info]
       ∧ contains info "organization None")
  ∧ ∃ report : string,
      blocks = [ {| Server.type := "text"; Server.text := report |} ]
      ∧ contains report "(Org: None)".
Proof.
  intros Hin Horg. unfold AzureBridge.list_tools in Hin. rewrite !elem_of_cons in Hin.
  destruct Hin as [->|[->|[->|Hin]]]; [..|by apply elem_of_nil in Hin].
  all: cbn [Server.name Server.inputSchema]; by_bridge_tool; try done.
  all: rewrite Horg; cbn [py_str].
  2: destruct (arguments !! "text") as [text|]; cbn [subscript_to]; [|discriminate].
  all: cbn [fst snd]; intros [= <-].
  all: split; [apply (bool_decide_unpack _); vm_compute; exact I|].
  all: split; [eexists; split; [reflexivity | find_text]|].
  all: eexists; split; [reflexivity | find_text].
Qed.

(** X17: the sentiment report previews the text by a prefix of it of at
    most 100 characters, followed by "...", and by the whole text when the
    text has at most 100 characters. *)
Theorem sentiment_preview_is_bounded_prefix
    (arguments : gmap string string) (text : string) :
  arguments !! "text" = Some text →
  ∃ preview rest report : string,
    text = preview +:+ rest
    ∧ py_len preview ≤ 100
    ∧ (py_len text ≤ 100 → preview = text)
    ∧ (AzureBridge.call_tool "analyze_client_sentiment" arguments).2
      = PyReturn [ {| Server.type := "text"; Server.text := report |} ]
    ∧ contains report ("Text Preview: " +:+ preview +:+ "...").
Proof.
  intros Htext.
  destruct (slice_to_prefix 100 text) as [rest Hrest].
  exists (slice_to 100 text), rest. eexists.
  split; [exact Hrest|].
  split; [apply py_len_slice_to|].
  split; [apply slice_to_short|].
  by_bridge_tool; try done.
  rewrite Htext. cbn [subscript_to snd].
  split; [reflexivity|].
  apply contains_app_l, contains_app_l.
  eexists ")
", _. rewrite !string_app_assoc. reflexivity.
Qed.

(** X18: the sentiment analysis looks at the first 100 characters of the
    text only: two texts with the same first 100 characters get the same
    info message and the same report. *)
Theorem sentiment_depends_on_preview_only
    (arguments : gmap string string) (text1 text2 : string) :
  slice_to 100 text1 = slice_to 100 text2 →
  AzureBridge.call_tool "analyze_client_sentiment" (<["text" := text1]> arguments)
  = AzureBridge.call_tool "analyze_client_sentiment" (<["text" := text2]> arguments).
Proof.
  intros Hslice. by_bridge_tool; try done.
  rewrite !lookup_insert_eq, !lookup_insert_ne by done.
  cbn [subscript_to]. by rewrite Hslice.
Qed.

(** X19: an optional argument of the bridge that is missing counts as its
    default: the document type as "general", the analysis type as
    "sentiment", the tax year as "2024". *)
Theorem bridge_missing_argument_is_default
    (name k d : string) (arguments : gmap string string) :
  (name, k, d) ∈ [ ("analyze_tax_document", "document_type", "general");
                   ("analyze_client_sentiment", "analysis_type", "sentiment");
                   ("search_tax_regulations", "tax_year", "2024") ] →
  arguments !! k = None →
  AzureBridge.call_tool name (<[k := d]> arguments)
  = AzureBridge.call_tool name arguments.
Proof.
  intros Hin Hnone. rewrite !elem_of_cons in Hin.
  destruct Hin as [Heq|[Heq|[Heq|Hin]]]; [..|by apply elem_of_nil in Hin].
  all: injection Heq as -> -> ->.
  all: by_bridge_tool; try done.
  all: rewrite ?lookup_insert_eq, ?lookup_insert_ne, ?Hnone by done; reflexivity.
Qed.

(** X20: a call of the bridge under a listed name writes exactly one info
    message, also when it raises; a call under any other name writes none
    and returns the "Unknown tool" block. *)
Theorem bridge_logs_listed_tools_only (name : string) (arguments : gmap string string) :
  (name ∈ Server.name <$> AzureBridge.list_tools →
   ∃ info : string, (AzureBridge.call_tool name arguments).1 = [info])
  ∧ (name ∉ Server.name <$> AzureBridge.list_tools →
     AzureBridge.call_tool name arguments
     = ([], PyReturn [ {| Server.type := "text"; Server.text := "Unknown tool: " +:+ name |} ])).
Proof.
  split.
  - intros Hin. cbn in Hin. rewrite !elem_of_cons in Hin.
    destruct Hin as [->|[->|[->|Hin]]]; [..|by apply elem_of_nil in Hin].
    all: by_bridge_tool; try done.
    2: destruct (subscript_to _ _).
    all: by eexists.
  - intros Hout. cbn in Hout. rewrite !not_elem_of_cons in Hout.
    destruct Hout as (H1 & H2 & H3 & _).
    by_bridge_tool; done.
Qed.

(** X21: an argument that the input schema of a listed tool of the bridge
    does not declare has no effect on its info message and its result. *)
Theorem bridge_undeclared_argument_ignored
    (tool : Server.Tool) (k v : string) (arguments : gmap string string) :
  tool ∈ AzureBridge.list_tools →
  k ∉ schema_properties (Server.inputSchema tool) →
  AzureBridge.call_tool (Server.name tool) (<[k := v]> arguments)
  = AzureBridge.call_tool (Server.name tool) arguments.
Proof.
  intros Hin Hk. unfold AzureBridge.list_tools in Hin. rewrite !elem_of_cons in Hin.
  destruct Hin as [->|[->|[->|Hin]]]; [..|by apply elem_of_nil in Hin].
  all: cbn in Hk; rewrite !not_elem_of_cons in Hk.
  all: cbn [Server.name]; unfold AzureBridge.call_tool; eqb_tests.
  all: rewrite !lookup_insert_ne by (intros ->; intuition congruence); reflexivity.
Qed.

(** ** Instances of the further properties *)

Local Abbreviation sample_request :=
  {| prompt := "Review the bracket logic";
     attrs := <["tax_year" := "2023"]> ∅ |}.

(** The security check is registered under the name it returns. *)
Lemma registered_under_own_name_witness :
  sample_tools !! "multi-tenant-security-check" = Some sample_sec
  ∧ get_name sample_sec = "multi-tenant-security-check".
Proof.
  split; [reflexivity|].
  apply (@registered_under_own_name Engine.Confidence sample_files_field prompt).
  reflexivity.
Defined.

(** The compliance context of two files and of the one file named like both. *)
Lemma expert_context_files_ambiguous_witness :
  sample_tools !! "financial-compliance-audit" = Some sample_fin
  ∧ prepare_expert_analysis_context sample_fin
      {| findings := "Ledger export"; relevant_files := ["ledger.py"; "audit.py"];
         steps_taken := [] |}
    = prepare_expert_analysis_context sample_fin
        {| findings := "Ledger export"; relevant_files := ["ledger.py, audit.py"];
           steps_taken := [] |}.
Proof.
  split; [reflexivity|].
  apply (@expert_context_files_ambiguous Engine.Confidence sample_files_field prompt
           "financial-compliance-audit" sample_fin "Ledger export" "ledger.py" "audit.py" []).
  reflexivity.
Defined.

(** The prompt of the sample request in the prompt of the tax review. *)
Lemma prepare_prompt_renders_prompt_witness :
  sample_tools !! "tax-calculation-review" = Some sample_tax
  ∧ ∃ context : string,
      prepare_prompt sample_tax sample_request = "Review the bracket logic" +:+ context
      ∧ contains context "Review the bracket logic".
Proof.
  split; [reflexivity|].
  apply (@prepare_prompt_renders_prompt Engine.Confidence sample_files_field prompt
           "tax-calculation-review" sample_tax sample_request).
  reflexivity.
Defined.

(** The tax year of the sample request in the prompt of the tax review. *)
Lemma prepare_prompt_renders_attribute_witness :
  sample_tools !! "tax-calculation-review" = Some sample_tax
  ∧ is_Some (get_tool_fields sample_tax !! "tax_year")
  ∧ attrs sample_request !! "tax_year" = Some "2023"
  ∧ contains (prepare_prompt sample_tax sample_request) "2023".
Proof.
  split; [reflexivity|]. split; [by eexists|]. split; [reflexivity|].
  apply (@prepare_prompt_renders_attribute Engine.Confidence sample_files_field prompt
           "tax-calculation-review" sample_tax sample_request "tax_year" "2023").
  - reflexivity.
  - by eexists.
  - discriminate.
  - discriminate.
  - reflexivity.
Defined.

(** An attribute "priority", which the tax review does not declare. *)
Lemma prepare_prompt_ignores_undeclared_attribute_witness :
  sample_tools !! "tax-calculation-review" = Some sample_tax
  ∧ get_tool_fields sample_tax !! "priority" = None
  ∧ ∃ context : string,
      prepare_prompt sample_tax (with_attr "priority" "high" sample_request)
      = "Review the bracket logic" +:+ context
      ∧ prepare_prompt sample_tax sample_request = "Review the bracket logic" +:+ context.
Proof.
  split; [reflexivity|]. split; [reflexivity|].
  apply (@prepare_prompt_ignores_undeclared_attribute Engine.Confidence sample_files_field prompt
           "tax-calculation-review" sample_tax sample_request "priority" "high");
    reflexivity.
Defined.

(** The hyphenated name of the tax review is not a key of [CPA_TOOLS]. *)
Lemma zen_tool_names_unknown_to_registry_witness :
  is_Some (sample_tools !! "tax-calculation-review")
  ∧ Registry.get_tool_info "tax-calculation-review" = Returns None
  ∧ ("tax-calculation-review" ∉ Registry.get_available_tools).
Proof.
  assert (Hreg : is_Some (sample_tools !! "tax-calculation-review")) by (by eexists).
  split; [exact Hreg|].
  exact (@zen_tool_names_unknown_to_registry Engine.Confidence sample_files_field prompt
           "tax-calculation-review" Hreg).
Defined.

(** A tax analysis without a tax year is one for 2024. *)
Lemma missing_argument_is_default_witness :
  let arguments : gmap string string := <["file_path" := "tax/brackets.py"]> ∅ in
  arguments !! "tax_year" = None
  ∧ Server.handle_call_tool "analyze_tax_logic" (<["tax_year" := "2024"]> arguments)
    = Server.handle_call_tool "analyze_tax_logic" arguments.
Proof.
  intros arguments. split; [reflexivity|].
  apply missing_argument_is_default; [|reflexivity].
  rewrite !elem_of_cons. right. left. reflexivity.
Defined.

(** The security audit declares "component" only, so "verbose" is ignored. *)
Lemma undeclared_argument_ignored_witness :
  let tool := default (Server.Build_Tool "" "" (JStr "")) (Server.handle_list_tools !! 1) in
  Server.name tool = "audit_multi_tenant_security"
  ∧ ("verbose" ∉ schema_properties (Server.inputSchema tool))
  ∧ Server.handle_call_tool "audit_multi_tenant_security" (<["verbose" := "yes"]> ∅)
    = Server.handle_call_tool "audit_multi_tenant_security" ∅.
Proof.
  intros tool.
  assert (Hin : tool ∈ Server.handle_list_tools).
  { subst tool. unfold Server.handle_list_tools. cbn [lookup list_lookup default from_option id].
    rewrite !elem_of_cons. right. left. reflexivity. }
  assert (Hk : "verbose" ∉ schema_properties (Server.inputSchema tool)).
  { apply (bool_decide_unpack _). vm_compute. exact I. }
  split; [reflexivity|]. split; [exact Hk|].
  exact (undeclared_argument_ignored tool "verbose" "yes" ∅ Hin Hk).
Defined.

(** The components "api" and "API". *)
Lemma audit_component_case_insensitive_witness :
  isascii "api" = true
  ∧ Server.handle_call_tool "audit_multi_tenant_security" (<["component" := "API"]> ∅)
    = Server.handle_call_tool "audit_multi_tenant_security" (<["component" := "api"]> ∅).
Proof.
  split; [reflexivity|].
  exact (proj1 (audit_component_case_insensitive "api" ∅ eq_refl)).
Defined.

(** The compliance report of the module "ledger". *)
Lemma reports_render_arguments_witness :
  let arguments : gmap string string := <["module" := "ledger"]> ∅ in
  arguments !! "module" = Some "ledger"
  ∧ ∃ report : string,
      Server.handle_call_tool "validate_cpa_compliance" arguments
      = Returns [ {| Server.type := "text"; Server.text := report |} ]
      ∧ contains report "ledger".
Proof.
  intros arguments. split; [reflexivity|].
  apply (reports_render_arguments "validate_cpa_compliance" "module"); [|reflexivity].
  rewrite !elem_of_cons. right. right. left. reflexivity.
Defined.

(** A sentiment analysis without a text. *)
Lemma sentiment_without_text_raises_witness :
  let arguments : gmap string string := <["organization_id" := "org-7"]> ∅ in
  arguments !! "text" = None
  ∧ ∃ info : string,
      AzureBridge.call_tool "analyze_client_sentiment" arguments
      = ([info], PyRaise TypeError).
Proof.
  intros arguments. split; [reflexivity|].
  apply (proj1 (sentiment_without_text_raises arguments)). reflexivity.
Defined.

(** A document analysis without an organization. *)
Lemma bridge_serves_missing_organization_witness :
  let tool := default (Server.Build_Tool "" "" (JStr "")) (AzureBridge.list_tools !! 0) in
  let arguments : gmap string string := <["document_url" := "w2.pdf"]> ∅ in
  Server.name tool = "analyze_tax_document"
  ∧ arguments !! "organization_id" = None
  ∧ ("organization_id" ∈ schema_required (Server.inputSchema tool))
  ∧ ∃ report : string,
      (AzureBridge.call_tool "analyze_tax_document" arguments).2
      = PyReturn [ {| Server.type := "text"; Server.text := report |} ]
      ∧ contains report "(Org: None)".
Proof.
  intros tool arguments.
  assert (Hin : tool ∈ AzureBridge.list_tools).
  { subst tool. unfold AzureBridge.list_tools. cbn [lookup list_lookup default from_option id].
    rewrite !elem_of_cons. left. reflexivity. }
  destruct (bridge_serves_missing_organization tool arguments _ Hin eq_refl eq_refl)
    as (Hreq & _ & report & Hblocks & Hreport).
  split; [reflexivity|]. split; [reflexivity|]. split; [exact Hreq|].
  exists report. split; [|exact Hreport].
  cbn [snd]. by rewrite <- Hblocks.
Defined.

(** A short text is previewed whole. *)
Lemma sentiment_preview_is_bounded_prefix_witness :
  let arguments : gmap string string := <["text" := "Thanks for the quick filing"]> ∅ in
  arguments !! "text" = Some "Thanks for the quick filing"
  ∧ ∃ preview rest report : string,
      "Thanks for the quick filing" = preview +:+ rest
      ∧ py_len preview ≤ 100
      ∧ (py_len "Thanks for the quick filing" ≤ 100 → preview = "Thanks for the quick filing")
      ∧ (AzureBridge.call_tool "analyze_client_sentiment" arguments).2
        = PyReturn [ {| Server.type := "text"; Server.text := report |} ]
      ∧ contains report ("Text Preview: " +:+ preview +:+ "...").
Proof.
  intros arguments. split; [reflexivity|].
  apply sentiment_preview_is_bounded_prefix. reflexivity.
Defined.

(** Two texts of 101 characters that differ in their last one. *)
Lemma sentiment_depends_on_preview_only_witness :
  let head := "0123456789012345678901234567890123456789012345678901234567890123456789012345678901234567890123456789" in
  slice_to 100 (head +:+ "a") = slice_to 100 (head +:+ "b")
  ∧ head +:+ "a" ≠ head +:+ "b"
  ∧ AzureBridge.call_tool "analyze_client_sentiment" (<["text" := head +:+ "a"]> ∅)
    = AzureBridge.call_tool "analyze_client_sentiment" (<["text" := head +:+ "b"]> ∅).
Proof.
  intros head. subst head.
  split; [vm_compute; reflexivity|].
  split; [intros H; vm_compute in H; discriminate H|].
  apply sentiment_depends_on_preview_only. vm_compute. reflexivity.
Defined.

(** A regulation search without a tax year is one for 2024. *)
Lemma bridge_missing_argument_is_default_witness :
  let arguments : gmap string string := <["query" := "depreciation"]> ∅ in
  arguments !! "tax_year" = None
  ∧ AzureBridge.call_tool "search_tax_regulations" (<["tax_year" := "2024"]> arguments)
    = AzureBridge.call_tool "search_tax_regulations" arguments.
Proof.
  intros arguments. split; [reflexivity|].
  apply bridge_missing_argument_is_default; [|reflexivity].
  rewrite !elem_of_cons. right. right. left. reflexivity.
Defined.

(** A listed name writes one message, the name "ping" none. *)
Lemma bridge_logs_listed_tools_only_witness :
  ("search_tax_regulations" ∈ Server.name <$> AzureBridge.list_tools)
  ∧ (∃ info : string, (AzureBridge.call_tool "search_tax_regulations" ∅).1 = [info])
  ∧ ("ping" ∉ Server.name <$> AzureBridge.list_tools)
  ∧ AzureBridge.call_tool "ping" ∅
    = ([], PyReturn [ {| Server.type := "text"; Server.text := "Unknown tool: ping" |} ]).
Proof.
  assert (Hin : "search_tax_regulations" ∈ Server.name <$> AzureBridge.list_tools).
  { apply (bool_decide_unpack _). vm_compute. exact I. }
  assert (Hout : "ping" ∉ Server.name <$> AzureBridge.list_tools).
  { apply (bool_decide_unpack _). vm_compute. exact I. }
  split; [exact Hin|].
  split; [exact (proj1 (bridge_logs_listed_tools_only "search_tax_regulations" ∅) Hin)|].
  split; [exact Hout|].
  exact (proj2 (bridge_logs_listed_tools_only "ping" ∅) Hout).
Defined.

(** The document analysis does not declare "verbose". *)
Lemma bridge_undeclared_argument_ignored_witness :
  let tool := default (Server.Build_Tool "" "" (JStr "")) (AzureBridge.list_tools !! 0) in
  Server.name tool = "analyze_tax_document"
  ∧ ("verbose" ∉ schema_properties (Server.inputSchema tool))
  ∧ AzureBridge.call_tool "analyze_tax_document" (<["verbose" := "yes"]> ∅)
    = AzureBridge.call_tool "analyze_tax_document" ∅.
Proof.
  intros tool.
  assert (Hin : tool ∈ AzureBridge.list_tools).
  { subst tool. unfold AzureBridge.list_tools. cbn [lookup list_lookup default from_option id].
    rewrite !elem_of_cons. left. reflexivity. }
  assert (Hk : "verbose" ∉ schema_properties (Server.inputSchema tool)).
  { apply (bool_decide_unpack _). vm_compute. exact I. }
  split; [reflexivity|]. split; [exact Hk|].
  exact (bridge_undeclared_argument_ignored tool "verbose" "yes" ∅ Hin Hk).
Defined.
